(** * api/generate.js: the spec-generation request handler

    A shallow embedding of [handler] from [api/generate.js] and the
    properties of its validation gates, its retry loop and its
    output-parsing stage.

    The handler is JavaScript: the values it receives (the request body, the
    provider's response envelope) are dynamically typed values that came out
    of a JSON parser.  They are modelled by the type [value]; property
    access, truthiness and string conversion follow ECMAScript on such
    values.  The platform primitives the handler calls but does not define
    ([Number::toString], [JSON.parse]) are variables of the section. *)

From Stdlib Require Import String Ascii List NArith ZArith Bool Lia.
From Stdlib Require Import DecimalString.
Import ListNotations.
Open Scope string_scope.

Set Implicit Arguments.
Set Warnings "-register-all".

(** ** Errors and the exception monad *)

(** A JavaScript [Error] object: its class name and its [message]. *)
Record Error := mkError { err_name : string; err_message : string }.

Definition TypeError (m : string) : Error := mkError "TypeError" m.
Definition SyntaxError (m : string) : Error := mkError "SyntaxError" m.
Definition PlainError (m : string) : Error := mkError "Error" m.

(** A computation that either throws or yields a result. *)
Definition Exc (A : Type) : Type := (Error + A)%type.

Definition ret {A} (a : A) : Exc A := inr a.
Definition throw {A} (e : Error) : Exc A := inl e.
Definition bind {A B} (c : Exc A) (k : A -> Exc B) : Exc B :=
  match c with
  | inl e => inl e
  | inr a => k a
  end.

Notation "x <- c ;; k" := (bind c (fun x => k))
  (at level 61, c at next level, right associativity).

(** Decimal text of a natural number, as [String(n)] gives it. *)
Definition decimal (n : N) : string := NilEmpty.string_of_uint (N.to_uint n).

(** ** Values and the platform *)

(** The values a JSON parser produces, and [undefined].  An object is the
    list of its own properties in insertion order, keys distinct.
    JavaScript numbers are IEEE doubles; the handler never computes with a
    number taken from its inputs, it only tests one for truthiness or
    converts it to text, so the type of numbers is left to the platform. *)
Inductive value (number : Type) : Type :=
| VUndefined
| VNull
| VBool (b : bool)
| VNum (n : number)
| VStr (s : string)
| VArr (elems : list (value number))
| VObj (fields : list (string * value number)).

Arguments VUndefined {number}.
Arguments VNull {number}.
Arguments VBool {number} b.
Arguments VNum {number} n.
Arguments VStr {number} s.
Arguments VArr {number} elems.
Arguments VObj {number} fields.

(** What the handler takes from the JavaScript runtime without defining
    it: numbers with ToBoolean and ToString on them, and [JSON.parse],
    which gives the parsed value or throws a [SyntaxError]; the empty text
    is not JSON. *)
Class Platform := {
  number : Type;
  number_truthy : number -> bool;
  number_to_string : number -> string;
  JSON_parse : string -> Exc (value number);
  JSON_parse_empty : forall v, JSON_parse "" <> inr v
}.

Section Handler.

Context {platform : Platform}.

Local Abbreviation value := (value number).

(** A property key: an identifier ([x.name]) or an index ([x[0]]). *)
Inductive key := KName (s : string) | KIndex (i : nat).

Definition key_text (k : key) : string :=
  match k with
  | KName s => s
  | KIndex i => decimal (N.of_nat i)
  end.

Fixpoint lookup (k : string) (fields : list (string * value)) : value :=
  match fields with
  | [] => VUndefined
  | (k', v) :: rest => if String.eqb k k' then v else lookup k rest
  end.

Definition has_own (k : string) (fields : list (string * value)) : bool :=
  existsb (fun kv => String.eqb k (fst kv)) fields.

Definition nullish (v : value) : bool :=
  match v with
  | VUndefined | VNull => true
  | _ => false
  end.

(** ToBoolean. *)
Definition truthy (v : value) : bool :=
  match v with
  | VUndefined | VNull => false
  | VBool b => b
  | VNum n => number_truthy n
  | VStr s => negb (String.eqb s "")
  | VArr _ | VObj _ => true
  end.

(** [v.k] and [v[i]].  Reading a property of [undefined] or [null] throws
    (the message is V8's); a primitive has no own named property and none
    of the names the handler reads is inherited from a prototype; a string
    indexes its characters (a [string] here is the sequence of its code
    units). *)
Definition get (v : value) (k : key) : Exc value :=
  match v with
  | VUndefined =>
      throw (TypeError ("Cannot read properties of undefined (reading '"
                          ++ key_text k ++ "')"))
  | VNull =>
      throw (TypeError ("Cannot read properties of null (reading '"
                          ++ key_text k ++ "')"))
  | VObj fields => ret (lookup (key_text k) fields)
  | VArr elems =>
      match k with
      | KIndex i => ret (nth i elems VUndefined)
      | KName _ => ret VUndefined
      end
  | VStr s =>
      match k with
      | KIndex i =>
          match String.get i s with
          | Some c => ret (VStr (String c ""))
          | None => ret VUndefined
          end
      | KName _ => ret VUndefined
      end
  | VBool _ | VNum _ => ret VUndefined
  end.

(** [a?.k]: [undefined] when [a] is [undefined] or [null]. *)
Definition get_opt (v : value) (k : key) : Exc value :=
  if nullish v then ret VUndefined else get v k.

(** ToString, as a template literal applies it.  An array joins its
    elements with commas ([null] and [undefined] give the empty text); an
    object inherits [Object.prototype.toString] unless an own property
    named [toString] shadows it, and a parsed property is never callable,
    so the conversion then throws. *)
Fixpoint ToString (v : value) : Exc string :=
  match v with
  | VUndefined => ret "undefined"
  | VNull => ret "null"
  | VBool true => ret "true"
  | VBool false => ret "false"
  | VNum n => ret (number_to_string n)
  | VStr s => ret s
  | VArr elems =>
      (fix join (l : list value) : Exc string :=
         match l with
         | [] => ret ""
         | x :: rest =>
             sx <- (if nullish x then ret "" else ToString x) ;;
             match rest with
             | [] => ret sx
             | _ :: _ => sr <- join rest ;; ret (sx ++ "," ++ sr)
             end
         end) elems
  | VObj fields =>
      if has_own "toString" fields
      then throw (TypeError "Cannot convert object to primitive value")
      else ret "[object Object]"
  end.

(** ** The handler's world *)

(** The process environment: [process.env.GEMINI_API_KEY], absent or a
    string. *)
Record Env := mkEnv { GEMINI_API_KEY : option string }.

(** The inbound request.  [body] is what evaluating [req.body] does: the
    platform parses the body lazily, so the read itself throws on a body it
    cannot parse, and gives [undefined] when there is none. *)
Record Request := mkRequest { method : string; body : Exc value }.

(** What [fetch] resolves to: [response.status], [response.statusText] and
    the outcome of [response.json()]. *)
Record Response := mkResponse {
  status : N;
  statusText : string;
  json : Exc value
}.

(** [response.ok]: the status is in the range 200-299. *)
Definition ok (r : Response) : bool :=
  ((200 <=? status r) && (status r <=? 299))%N.

(** One call of [fetch]: the promise rejects (network failure) or resolves
    to a response. *)
Inductive fetch_result :=
| Rejects (e : Error)
| Resolves (r : Response).

(** The request body sent to the provider, before [JSON.stringify]. *)
Record Payload := mkPayload {
  contents_text : string;
  systemInstruction_text : string;
  responseMimeType : string;
  payload_schema : value
}.

Inductive level := Warn | Err.

(** An argument of [console.warn] / [console.error]; [LJson v] stands for
    the text [JSON.stringify(v)]. *)
Inductive log_arg :=
| LText (s : string)
| LValue (v : value)
| LJson (v : value)
| LErr (e : Error).

(** What the handler does to the outside, in order. *)
Inductive event :=
| EFetch (url : string) (p : Payload)
| ESleep (ms : N)
| EConsole (l : level) (args : list log_arg)
| ERespond (code : N) (body : value).

(** How the [async] function ends: its promise resolves, or an exception
    escaped it. *)
Inductive completion :=
| Resolved
| Rejected (e : Error).

(** ** Constants of the source *)

Definition LF : string := String "010"%char EmptyString.

Definition responseSchema : value :=
  VObj [
    ("type", VStr "ARRAY");
    ("items", VObj [
      ("type", VStr "OBJECT");
      ("properties", VObj [
        ("componentName", VObj [
          ("type", VStr "STRING");
          ("description", VStr "電腦組件的名稱和簡寫（例如：處理器(CPU), 顯示卡(GPU)）。")]);
        ("componentDescription", VObj [
          ("type", VStr "STRING");
          ("description", VStr "根據用戶需求推薦的具體型號、規格和簡短的推薦理由，並確保所有組件之間是完全相容的。")])]);
      ("required", VArr [VStr "componentName"; VStr "componentDescription"]);
      ("propertyOrdering",
        VArr [VStr "componentName"; VStr "componentDescription"])])].

Definition MAX_RETRIES : nat := 5.

Definition msg_method_not_allowed : string :=
  "Method Not Allowed, please use POST.".
Definition msg_no_api_key : string :=
  "伺服器配置錯誤：未找到 API 金鑰。請檢查 Vercel 環境變數 GEMINI_API_KEY 是否已設定。".
Definition msg_invalid_body : string :=
  "Invalid JSON body or missing prompt/hardwareData.".
Definition msg_prompt_required : string := "Prompt is required.".
Definition msg_call_failed : string :=
  "無法生成規格清單。Gemini API 呼叫失敗，請檢查 API 金鑰、結帳和配額。".
Definition msg_invalid_json : string :=
  "AI 生成了無效的 JSON 格式，可能因為安全過濾或模型輸齣錯誤。".
Definition msg_empty_content : string :=
  "Gemini returned empty content. Finish Reason: ".

Definition apiUrl (apiKey : string) : string :=
  "https://generativelanguage.googleapis.com/v1beta/models/gemini-2.5-flash-preview-09-2025:generateContent?key="
  ++ apiKey.

(** The two template literals of step 2. *)
Definition systemPrompt (prompt : value) : Exc string :=
  p <- ToString prompt ;;
  ret ("你是一位專業的 AI PC 組裝顧問。你的任務是根據用戶的需求 (" ++ p ++ ")，從提供的硬體規格參考圖表 (如下方) 中，挑選出最適合的電腦組件，並以 JSON 格式輸出。

1. 請務必輸出 8 個主要組件：主機板、處理器、散熱器、記憶體、顯示卡、儲存裝置、電源供應器、機殼。
2. componentName 必須是組件的中文名稱和簡寫（例如：處理器(CPU)）。
3. componentDescription 必須包含具體的型號、規格和簡短的推薦理由，並確保所有組件之間是完全相容的（例如：CPU 與 MB 的腳位/晶片組、MB 與 RAM 的世代）。
4. 你必須嚴格遵循提供的 JSON Schema，並只輸出 JSON 內容，不包含任何額外的文字或 Markdown 標記。
5. 提供的硬體數據是參考資料，你應根據這些信息進行合理的硬體搭配。").

Definition userQuery_head : string := "用戶需求: ".
Definition userQuery_table : string := LF ++ LF ++ "硬體規格參考圖表:" ++ LF.

Definition userQuery (prompt hardwareData : value) : Exc string :=
  p <- ToString prompt ;;
  h <- ToString hardwareData ;;
  ret (userQuery_head ++ p ++ userQuery_table ++ h).

Definition mkpayload (userQuery systemPrompt : string) : Payload :=
  {| contents_text := userQuery;
     systemInstruction_text := systemPrompt;
     responseMimeType := "application/json";
     payload_schema := responseSchema |}.

(** ** Step 3: one attempt of the outbound call *)

(** [errorData.error?.message || response.statusText], where [errorData]
    is the response's JSON body, or the empty object when the body does not
    parse. *)
Definition errorMessage_of (r : Response) : Exc value :=
  let errorData := match json r with
                   | inl _ => VObj []
                   | inr v => v
                   end in
  e <- get errorData (KName "error") ;;
  m <- get_opt e (KName "message") ;;
  ret (if truthy m then m else VStr (statusText r)).

(** The body of the [try] inside the loop, given what [fetch] did: the
    value assigned to [apiResponse], or the exception thrown. *)
Definition attempt (fr : fetch_result) : Exc value :=
  match fr with
  | Rejects e => throw e
  | Resolves r =>
      if negb (ok r) then
        errorMessage <- errorMessage_of r ;;
        if ((status r =? 403) || (status r =? 400))%N then
          m <- ToString errorMessage ;;
          throw (PlainError
            ("Gemini API Failed (Status: " ++ decimal (status r)
             ++ "). Check Key validity, Billing, and API Enablement. Message: "
             ++ m))
        else if ((status r =? 429) || (500 <=? status r))%N then
          m <- ToString errorMessage ;;
          throw (PlainError
            ("API returned status " ++ decimal (status r)
             ++ ". Retrying... Message: " ++ m))
        else
          m <- ToString errorMessage ;;
          throw (PlainError
            ("API returned unhandled status " ++ decimal (status r)
             ++ ". Message: " ++ m))
      else json r
  end.

(** The body of the final-failure response. *)
Definition failure_body (message details : string) : value :=
  VObj [("message", VStr message); ("errorDetails", VStr details)].

(** [Math.pow(2, i) * 1000] *)
Definition backoff (i : nat) : N := (2 ^ N.of_nat i * 1000)%N.

Definition retry_warning (i : nat) (error : Error) : string :=
  "[Retry " ++ decimal (N.of_nat (i + 1)) ++ "] API call failed: "
  ++ err_message error ++ ". Delaying " ++ decimal (backoff i) ++ "ms...".

(** How the [for] statement is left: past its end or by [break], with the
    value [apiResponse] then holds, or by the [return] in its [catch]. *)
Inductive loop_exit :=
| LoopDone (apiResponse : value)
| LoopReturned.

Section Loop.

(** The simulated provider: what the [i]-th call of [fetch] in this
    invocation does, counting from 0.  Every call of one invocation sends
    the same URL and payload. *)
Variable provider : nat -> fetch_result.
Variable url : string.
Variable payload : Payload.

(** [for (let i = 0; i < MAX_RETRIES; i++)], entered with the counter at
    [i]; [remaining] is [MAX_RETRIES - i], the iterations the loop header
    still allows.  Once it is 0 the condition is false and [apiResponse]
    is still [null]. *)
Fixpoint retry_loop (remaining i : nat) : list event * loop_exit :=
  match remaining with
  | O => ([], LoopDone VNull)
  | S remaining' =>
      match attempt (provider i) with
      | inr apiResponse => ([EFetch url payload], LoopDone apiResponse)
      | inl error =>
          let lastError := error in
          if (i <? MAX_RETRIES - 1)%nat then
            let delay := backoff i in
            let '(rest, exit) := retry_loop remaining' (S i) in
            (EFetch url payload
               :: EConsole Warn [LText (retry_warning i error)]
               :: ESleep delay :: rest, exit)
          else
            ([EFetch url payload;
              EConsole Err [LText "Gemini API call failed after max retries:";
                            LText (err_message lastError)];
              ERespond 500 (failure_body msg_call_failed
                                         (err_message lastError))],
             LoopReturned)
      end
  end.

End Loop.

(** ** Step 4: parsing the provider's envelope *)

(** [apiResponse.candidates?.[0]] *)
Definition first_candidate (apiResponse : value) : Exc value :=
  candidates <- get apiResponse (KName "candidates") ;;
  get_opt candidates (KIndex 0).

(** [candidate.content?.parts?.[0]?.text]: the first access is not
    optional; after it the whole chain gives [undefined] as soon as one link
    is [undefined] or [null]. *)
Definition text_of (candidate : value) : Exc value :=
  content <- get candidate (KName "content") ;;
  if nullish content then ret VUndefined else
  parts <- get content (KName "parts") ;;
  if nullish parts then ret VUndefined else
  part <- get parts (KIndex 0) ;;
  get_opt part (KName "text").

(** Both steps: the text the envelope carries, if any. *)
Definition jsonText_of (apiResponse : value) : Exc value :=
  candidate <- first_candidate apiResponse ;;
  text_of candidate.

(** [x || d] *)
Definition or_else (x d : value) : value := if truthy x then x else d.

(** The body of the final [try]: what it logs, and the value it passes to
    [res.status(200).json] or the exception it throws. *)
Definition parse_output (apiResponse : value) : list event * Exc value :=
  match first_candidate apiResponse with
  | inl e => ([], throw e)
  | inr candidate =>
      match text_of candidate with
      | inl e => ([], throw e)
      | inr jsonText =>
          if negb (truthy jsonText) then
            match get_opt candidate (KName "finishReason"),
                  get_opt candidate (KName "safetyRatings") with
            | inr fr, inr sr =>
                let finishReason := or_else fr (VStr "UNKNOWN") in
                let safetyRatings := or_else sr (VStr "N/A") in
                ([EConsole Err
                    [LText "Gemini returned empty content. Finish Reason:";
                     LValue finishReason; LText "Safety:";
                     LJson safetyRatings]],
                 f <- ToString finishReason ;;
                 throw (PlainError (msg_empty_content ++ f)))
            | inl e, _ => ([], throw e)
            | _, inl e => ([], throw e)
            end
          else
            ([], t <- ToString jsonText ;; JSON_parse t)
      end
  end.

(** The final [try]/[catch]: one response either way. *)
Definition respond_output (apiResponse : value) : list event :=
  let '(logs, r) := parse_output apiResponse in
  match r with
  | inr parsedJson => (logs ++ [ERespond 200 parsedJson])%list
  | inl e =>
      (logs ++
       [EConsole Err [LText "Error parsing or sending final response:";
                      LErr e];
        ERespond 500 (failure_body msg_invalid_json (err_message e))])%list
  end.

(** ** The handler *)

(** [({ prompt, hardwareData } = req.body)]: reading [req.body] may throw,
    and destructuring [undefined] or [null] throws.  The [catch] around it
    drops the error, so its wording is of no consequence. *)
Definition destructure (b : Exc value) : Exc (value * value) :=
  v <- b ;;
  prompt <- get v (KName "prompt") ;;
  hardwareData <- get v (KName "hardwareData") ;;
  ret (prompt, hardwareData).

(** [!apiKey] *)
Definition key_missing (k : option string) : bool :=
  match k with
  | None => true
  | Some s => String.eqb s ""
  end.

(** Steps 1 and 2, up to the construction of the payload: either the
    handler ends there ([inl]: what it did and how it ended), or it goes on
    to the outbound call with this URL and this payload ([inr]). *)
Definition prepare (env : Env) (req : Request)
    : (list event * completion) + (string * Payload) :=
  if negb (String.eqb (method req) "POST") then
    inl ([ERespond 405 (VObj [("message", VStr msg_method_not_allowed)])],
         Resolved)
  else
  let apiKey := GEMINI_API_KEY env in
  if key_missing apiKey then
    inl ([EConsole Err
            [LText "[CRITICAL] GEMINI_API_KEY environment variable is not set on Vercel."];
          ERespond 500 (VObj [("message", VStr msg_no_api_key);
                              ("errorCode", VStr "NO_API_KEY_CONFIGURED")])],
         Resolved)
  else
  let url := apiUrl (match apiKey with Some k => k | None => "" end) in
  match destructure (body req) with
  | inl _ =>
      inl ([ERespond 400 (VObj [("message", VStr msg_invalid_body)])],
           Resolved)
  | inr (prompt, hardwareData) =>
      if negb (truthy prompt) then
        inl ([ERespond 400 (VObj [("message", VStr msg_prompt_required)])],
             Resolved)
      else
      match systemPrompt prompt with
      | inl e => inl ([], Rejected e)
      | inr sp =>
          match userQuery prompt hardwareData with
          | inl e => inl ([], Rejected e)
          | inr uq => inr (url, mkpayload uq sp)
          end
      end
  end.

(** The whole handler, against a simulated provider. *)
Definition handler (env : Env) (req : Request)
    (provider : nat -> fetch_result) : list event * completion :=
  match prepare env req with
  | inl ended => ended
  | inr (url, payload) =>
      match retry_loop provider url payload MAX_RETRIES 0 with
      | (evs, LoopReturned) => (evs, Resolved)
      | (evs, LoopDone apiResponse) =>
          ((evs ++ respond_output apiResponse)%list, Resolved)
      end
  end.

(** ** Reading a trace *)

Definition fetches (t : list event) : list (string * Payload) :=
  flat_map (fun e => match e with EFetch u p => [(u, p)] | _ => [] end) t.

Definition sleeps (t : list event) : list N :=
  flat_map (fun e => match e with ESleep ms => [ms] | _ => [] end) t.

Definition responses (t : list event) : list (N * value) :=
  flat_map (fun e => match e with ERespond c b => [(c, b)] | _ => [] end) t.

Definition logged (t : list event) : list (level * list log_arg) :=
  flat_map (fun e => match e with EConsole l a => [(l, a)] | _ => [] end) t.

(** The calls and the delays of a trace, in the order they happen. *)
Inductive step := Call | Wait (ms : N).

Definition timeline (t : list event) : list step :=
  flat_map (fun e => match e with
                     | EFetch _ _ => [Call]
                     | ESleep ms => [Wait ms]
                     | EConsole _ _ | ERespond _ _ => []
                     end) t.

(** The number of outbound calls. *)
Definition calls (t : list event) : nat := length (fetches t).

(** The message of the error thrown for a response that is not [ok], by
    status: the three template literals of the [if (!response.ok)] block,
    with [m] for the interpolated error message. *)
Definition status_error_text (code : N) (m : string) : string :=
  if ((code =? 403) || (code =? 400))%N then
    "Gemini API Failed (Status: " ++ decimal code
    ++ "). Check Key validity, Billing, and API Enablement. Message: " ++ m
  else if ((code =? 429) || (500 <=? code))%N then
    "API returned status " ++ decimal code ++ ". Retrying... Message: " ++ m
  else
    "API returned unhandled status " ++ decimal code ++ ". Message: " ++ m.

(** An event with the URL of an outbound call blanked. *)
Definition redact (e : event) : event :=
  match e with
  | EFetch _ p => EFetch "" p
  | ESleep _ | EConsole _ _ | ERespond _ _ => e
  end.

(** Whether a template literal can interpolate [v]. *)
Definition converts (v : value) : bool :=
  match ToString v with
  | inr _ => true
  | inl _ => false
  end.

End Handler.

(** ** A reference platform

    An instance of [Platform] on which the model runs: numbers are the
    integers, and [JSON.parse] is a recursive-descent parser for JSON with
    integer numbers.  It rejects what it does not cover (a fraction or an
    exponent, a [\u] escape) and reports every rejection with one message,
    where an engine words each differently. *)
Module Ref.

Definition int_to_string (z : Z) : string :=
  NilZero.string_of_int (Z.to_int z).

Definition int_truthy (z : Z) : bool := negb (z =? 0)%Z.

Definition quote : ascii := "034"%char.
Definition backslash : ascii := "092"%char.

Definition is_ws (c : ascii) : bool :=
  let n := nat_of_ascii c in
  ((n =? 32) || (n =? 9) || (n =? 10) || (n =? 13))%nat.

Definition is_digit (c : ascii) : bool :=
  let n := nat_of_ascii c in ((48 <=? n) && (n <=? 57))%nat.

Definition digit_value (c : ascii) : Z := Z.of_nat (nat_of_ascii c - 48).

Fixpoint skip_ws (s : string) : string :=
  match s with
  | String c r => if is_ws c then skip_ws r else s
  | EmptyString => s
  end.

Fixpoint strip_prefix (p s : string) : option string :=
  match p, s with
  | EmptyString, _ => Some s
  | String a p', String b s' =>
      if Ascii.eqb a b then strip_prefix p' s' else None
  | String _ _, EmptyString => None
  end.

(** The digits at the head of [s], folded into [acc]. *)
Fixpoint read_digits (s : string) (acc : Z) : Z * string :=
  match s with
  | String c r =>
      if is_digit c then read_digits r (10 * acc + digit_value c)%Z
      else (acc, s)
  | EmptyString => (acc, s)
  end.

Definition starts_with (f : ascii -> bool) (s : string) : bool :=
  match s with
  | String c _ => f c
  | EmptyString => false
  end.

(** An integer without sign: [0], or a digit 1-9 and more digits; nothing
    that continues it as a fraction or an exponent. *)
Definition read_nat (s : string) : option (Z * string) :=
  match s with
  | String c r =>
      if negb (is_digit c) then None
      else
        let '(n, rest) :=
          if Ascii.eqb c "0" then (0%Z, r) else read_digits s 0%Z in
        if starts_with (fun d => is_digit d || Ascii.eqb d "."
                                 || Ascii.eqb d "e" || Ascii.eqb d "E") rest
        then None else Some (n, rest)
  | EmptyString => None
  end.

Definition unescape (c : ascii) : option ascii :=
  if Ascii.eqb c quote then Some quote
  else if Ascii.eqb c backslash then Some backslash
  else if Ascii.eqb c "/" then Some "/"%char
  else if Ascii.eqb c "b" then Some "008"%char
  else if Ascii.eqb c "f" then Some "012"%char
  else if Ascii.eqb c "n" then Some "010"%char
  else if Ascii.eqb c "r" then Some "013"%char
  else if Ascii.eqb c "t" then Some "009"%char
  else None.

(** The characters of a string literal after its opening quote, and what
    follows the closing one. *)
Fixpoint read_string (s : string) : option (string * string) :=
  match s with
  | EmptyString => None
  | String c r =>
      if Ascii.eqb c quote then Some (EmptyString, r)
      else if Ascii.eqb c backslash then
        match r with
        | String e r' =>
            match unescape e, read_string r' with
            | Some ch, Some (str, rest) => Some (String ch str, rest)
            | _, _ => None
            end
        | EmptyString => None
        end
      else if (nat_of_ascii c <? 32)%nat then None
      else
        match read_string r with
        | Some (str, rest) => Some (String c str, rest)
        | None => None
        end
  end.

(** Defining a property: a repeated key keeps its place and takes the new
    value. *)
Fixpoint obj_set (k : string) (v : value Z) (fields : list (string * value Z))
    : list (string * value Z) :=
  match fields with
  | [] => [(k, v)]
  | (k', v') :: rest =>
      if String.eqb k k' then (k, v) :: rest
      else (k', v') :: obj_set k v rest
  end.

Fixpoint read_value (fuel : nat) (s : string) : option (value Z * string) :=
  match fuel with
  | O => None
  | S fuel' =>
      match skip_ws s with
      | EmptyString => None
      | String c r as s0 =>
          if Ascii.eqb c "[" then
            match skip_ws r with
            | String "]" r' => Some (VArr [], r')
            | r0 =>
                option_map (fun '(vs, rest) => (VArr vs, rest))
                ((fix elements (n : nat) (s1 : string)
                   : option (list (value Z) * string) :=
                   match n with
                   | O => None
                   | S n' =>
                       match read_value fuel' s1 with
                       | None => None
                       | Some (v, r1) =>
                           match skip_ws r1 with
                           | String "," r2 =>
                               match elements n' r2 with
                               | Some (vs, r3) => Some (v :: vs, r3)
                               | None => None
                               end
                           | String "]" r2 => Some ([v], r2)
                           | _ => None
                           end
                       end
                   end) (String.length r0) r0)
            end
          else if Ascii.eqb c "{" then
            match skip_ws r with
            | String "}" r' => Some (VObj [], r')
            | r0 =>
                option_map (fun '(fs, rest) => (VObj fs, rest))
                ((fix members (n : nat) (s1 : string)
                     (acc : list (string * value Z))
                   : option (list (string * value Z) * string) :=
                   match n with
                   | O => None
                   | S n' =>
                       match skip_ws s1 with
                       | String q r1 =>
                           if negb (Ascii.eqb q quote) then None else
                           match read_string r1 with
                           | None => None
                           | Some (k, r2) =>
                               match skip_ws r2 with
                               | String ":" r3 =>
                                   match read_value fuel' r3 with
                                   | None => None
                                   | Some (v, r4) =>
                                       let acc' := obj_set k v acc in
                                       match skip_ws r4 with
                                       | String "," r5 => members n' r5 acc'
                                       | String "}" r5 => Some (acc', r5)
                                       | _ => None
                                       end
                                   end
                               | _ => None
                               end
                           end
                       | EmptyString => None
                       end
                   end) (String.length r0) r0 [])
            end
          else if Ascii.eqb c quote then
            option_map (fun '(str, rest) => (VStr str, rest)) (read_string r)
          else if Ascii.eqb c "-" then
            option_map (fun '(n, rest) => (VNum (- n)%Z, rest)) (read_nat r)
          else if is_digit c then
            option_map (fun '(n, rest) => (VNum n, rest)) (read_nat s0)
          else
            match strip_prefix "null" s0, strip_prefix "true" s0,
                  strip_prefix "false" s0 with
            | Some rest, _, _ => Some (VNull, rest)
            | _, Some rest, _ => Some (VBool true, rest)
            | _, _, Some rest => Some (VBool false, rest)
            | _, _, _ => None
            end
      end
  end.

Definition parse (text : string) : Exc (value Z) :=
  match read_value (S (String.length text)) text with
  | Some (v, rest) =>
      match skip_ws rest with
      | EmptyString => ret v
      | String _ _ => throw (SyntaxError "Unexpected token in JSON")
      end
  | None => throw (SyntaxError "Unexpected token in JSON")
  end.

#[export] Instance platform : Platform.
Proof.
  refine {| number := Z;
            number_truthy := int_truthy;
            number_to_string := int_to_string;
            JSON_parse := parse |}.
  discriminate.
Defined.

End Ref.


(** ** Scenarios: concrete requests, environments and simulated providers *)
Module Scenario.
Import Ref.

Definition env_set : Env := mkEnv (Some "test-key").
Definition env_unset : Env := mkEnv None.

Definition body_full : value Z :=
  VObj [("prompt", VStr "4K gaming build");
        ("hardwareData", VStr "GPU: RTX 4070 12GB")].

Definition req_full : Request := mkRequest "POST" (inr body_full).
Definition req_no_table : Request :=
  mkRequest "POST" (inr (VObj [("prompt", VStr "4K gaming build")])).
Definition req_get : Request := mkRequest "GET" (inr body_full).
Definition req_no_prompt : Request :=
  mkRequest "POST" (inr (VObj [("hardwareData", VStr "GPU: RTX 4070 12GB")])).
Definition req_empty_prompt : Request :=
  mkRequest "POST" (inr (VObj [("prompt", VStr "")])).
Definition req_unparsable : Request :=
  mkRequest "POST" (inl (mkError "ApiError" "Invalid JSON")).
Definition req_no_body : Request := mkRequest "POST" (inr VUndefined).

(** A body whose prompt is an object with a property named [toString]. *)
Definition req_object_prompt : Request :=
  mkRequest "POST"
    (inr (VObj [("prompt", VObj [("toString", VStr "x")])])).

(** The provider's error body and a response that carries it. *)
Definition error_body (msg : string) : value Z :=
  VObj [("error", VObj [("message", VStr msg)])].

Definition failing (code : N) (reason msg : string) : fetch_result :=
  Resolves (mkResponse code reason (inr (error_body msg))).

Definition succeeding (envelope : value Z) : fetch_result :=
  Resolves (mkResponse 200 "OK" (inr envelope)).

(** An envelope whose first candidate carries [text]. *)
Definition envelope (text : string) : value Z :=
  VObj [("candidates",
         VArr [VObj [("content",
                      VObj [("role", VStr "model");
                            ("parts", VArr [VObj [("text", VStr text)]])]);
                     ("finishReason", VStr "STOP")]])].

(** A candidate that was stopped with no part, and the envelope whose
    first candidate it is. *)
Definition candidate_blocked (safety : value Z) : value Z :=
  VObj [("content", VObj [("parts", VArr [])]);
        ("finishReason", VStr "SAFETY");
        ("safetyRatings", safety)].

Definition envelope_blocked (safety : value Z) : value Z :=
  VObj [("candidates", VArr [candidate_blocked safety])].

(** An envelope whose first candidate has no part and, as finish reason,
    an object with a property named [toString]. *)
Definition envelope_odd_reason : value Z :=
  VObj [("candidates",
         VArr [VObj [("content", VObj [("parts", VArr [])]);
                     ("finishReason", VObj [("toString", VStr "x")])]])].

Definition rating (category probability : string) : value Z :=
  VObj [("category", VStr category); ("probability", VStr probability)].

Definition ratings_high : value Z :=
  VArr [rating "HARM_CATEGORY_DANGEROUS_CONTENT" "HIGH"].
Definition ratings_low : value Z :=
  VArr [rating "HARM_CATEGORY_DANGEROUS_CONTENT" "NEGLIGIBLE"].

Definition q (s : string) : string := String quote (s ++ String quote "").

(** The JSON text of a one-component list. *)
Definition components_text : string :=
  "[{" ++ q "componentName" ++ ":" ++ q "CPU" ++ ","
  ++ q "componentDescription" ++ ":" ++ q "Ryzen 7 7800X3D" ++ "}]".

Definition components : value Z :=
  VArr [VObj [("componentName", VStr "CPU");
              ("componentDescription", VStr "Ryzen 7 7800X3D")]].

Definition always (fr : fetch_result) : nat -> fetch_result := fun _ => fr.

(** [first] on the calls before the [k]-th, [later] from then on. *)
Definition switch_at (k : nat) (first later : fetch_result)
    : nat -> fetch_result :=
  fun i => if (i <? k)%nat then first else later.

Definition provider_forbidden : nat -> fetch_result :=
  always (failing 403 "Forbidden" "API key not valid.").

Definition provider_rate_limited : nat -> fetch_result :=
  always (failing 429 "Too Many Requests" "Resource has been exhausted.").

Definition response_ok : Response :=
  mkResponse 200 "OK" (inr (envelope components_text)).

Definition provider_fifth : nat -> fetch_result :=
  switch_at 4 (failing 429 "Too Many Requests" "Resource has been exhausted.")
            (Resolves response_ok).

Definition provider_second : nat -> fetch_result :=
  switch_at 1 (failing 403 "Forbidden" "API key not valid.")
            (Resolves response_ok).

Definition provider_ok : nat -> fetch_result := always (Resolves response_ok).

Definition provider_blocked (safety : value Z) : nat -> fetch_result :=
  always (succeeding (envelope_blocked safety)).

Definition req_put : Request :=
  mkRequest "PUT" (inl (mkError "ApiError" "Invalid JSON")).
Definition req_null_body : Request := mkRequest "POST" (inr VNull).
Definition req_array_body : Request :=
  mkRequest "POST" (inr (VArr [VStr "4K gaming build"])).

(** The network is down: every [fetch] rejects. *)
Definition provider_offline : nat -> fetch_result :=
  always (Rejects (TypeError "fetch failed")).

(** A gateway answers 503 with a page that is not JSON. *)
Definition response_unavailable : Response :=
  mkResponse 503 "Service Unavailable"
    (inl (SyntaxError "Unexpected token in JSON")).

Definition provider_unavailable : nat -> fetch_result :=
  always (Resolves response_unavailable).

(** The endpoint is not found, and says so in its error body. *)
Definition response_not_found : Response :=
  mkResponse 404 "Not Found" (inr (error_body "models/x is not found.")).

(** Two rejections, then the good response. *)
Definition provider_third : nat -> fetch_result :=
  switch_at 2 (Rejects (TypeError "fetch failed")) (Resolves response_ok).

Definition provider_bad_text : nat -> fetch_result :=
  always (succeeding (envelope "{not valid json")).

Definition test_url : string := apiUrl "test-key".
Definition other_key : string := "other-key".

(** The payload the handler builds for an accepted request. *)
Definition payload_of (req : Request) : Payload :=
  match prepare env_set req with
  | inr (_, payload) => payload
  | inl _ => mkpayload "" ""
  end.

End Scenario.

(** * Properties *)

Unset Implicit Arguments.

Section Properties.

Context {platform : Platform}.

Local Abbreviation value := (value number).

(** ** Reading a trace that is a concatenation *)

Lemma fetches_app (t1 t2 : list event) :
  fetches (t1 ++ t2) = (fetches t1 ++ fetches t2)%list.
Proof. apply flat_map_app. Qed.

Lemma sleeps_app (t1 t2 : list event) :
  sleeps (t1 ++ t2) = (sleeps t1 ++ sleeps t2)%list.
Proof. apply flat_map_app. Qed.

Lemma responses_app (t1 t2 : list event) :
  responses (t1 ++ t2) = (responses t1 ++ responses t2)%list.
Proof. apply flat_map_app. Qed.

Lemma logged_app (t1 t2 : list event) :
  logged (t1 ++ t2) = (logged t1 ++ logged t2)%list.
Proof. apply flat_map_app. Qed.

Lemma calls_app (t1 t2 : list event) :
  calls (t1 ++ t2) = calls t1 + calls t2.
Proof. unfold calls. rewrite fetches_app. apply length_app. Qed.

(** ** One attempt *)

(** [bind] on a computation that is known. *)
Lemma bind_inr {A B} (c : Exc A) (k : A -> Exc B) (a : A) :
  c = inr a -> bind c k = k a.
Proof. intros ->. reflexivity. Qed.

Lemma bind_inl {A B} (c : Exc A) (k : A -> Exc B) (e : Error) :
  c = inl e -> bind c k = inl e.
Proof. intros ->. reflexivity. Qed.

(** An attempt whose response is not [ok] always throws. *)
Lemma attempt_not_ok (r : Response) :
  ok r = false -> exists e, attempt (Resolves r) = inl e.
Proof.
  intros Hok. unfold attempt. rewrite Hok. simpl.
  destruct (errorMessage_of r) as [e | m]; simpl; [now exists e |].
  destruct (ToString m) as [e | t]; simpl;
    destruct ((status r =? 403) || (status r =? 400))%N;
    try destruct ((status r =? 429) || (500 <=? status r))%N;
    eauto.
Qed.

(** A status outside 200-299 is not [ok]. *)
Lemma ok_false_of_status (r : Response) :
  (300 <= status r)%N -> ok r = false.
Proof.
  intros H. unfold ok. apply andb_false_iff. right.
  apply N.leb_gt. lia.
Qed.

(** What the attempt throws on a 403 or a 400 whose error message
    converts to text. *)
Lemma attempt_forbidden (r : Response) (m : value) (t : string) :
  status r = 403%N \/ status r = 400%N ->
  errorMessage_of r = inr m -> ToString m = inr t ->
  attempt (Resolves r) =
  inl (PlainError
         ("Gemini API Failed (Status: " ++ decimal (status r)
          ++ "). Check Key validity, Billing, and API Enablement. Message: "
          ++ t)).
Proof.
  intros Hs Hm Ht. unfold attempt.
  rewrite ok_false_of_status by (destruct Hs as [-> | ->]; lia).
  simpl. rewrite Hm. simpl.
  replace ((status r =? 403) || (status r =? 400))%N with true
    by (destruct Hs as [-> | ->]; reflexivity).
  rewrite Ht. reflexivity.
Qed.

(** What the attempt throws on a 429 whose error message converts to
    text. *)
Lemma attempt_rate_limited (r : Response) (m : value) (t : string) :
  status r = 429%N ->
  errorMessage_of r = inr m -> ToString m = inr t ->
  attempt (Resolves r) =
  inl (PlainError ("API returned status 429. Retrying... Message: " ++ t)).
Proof.
  intros Hs Hm Ht. unfold attempt.
  rewrite ok_false_of_status by (rewrite Hs; lia).
  simpl. rewrite Hm. simpl. rewrite Hs. simpl. rewrite Ht. reflexivity.
Qed.

(** ** The retry loop *)

Section LoopFacts.

Variable provider : nat -> fetch_result.
Variable url : string.
Variable payload : Payload.

Local Abbreviation loop := (retry_loop provider url payload).

(** One more iteration when the attempt succeeds: the loop is left by
    [break]. *)
Lemma loop_break (remaining i : nat) (v : value) :
  attempt (provider i) = inr v ->
  loop (S remaining) i = ([EFetch url payload], LoopDone v).
Proof. intros H. simpl. rewrite H. reflexivity. Qed.

(** A failed attempt before the last one is followed by the delay and
    the next iteration, whatever was thrown. *)
Lemma loop_retry (remaining i : nat) (e : Error) :
  attempt (provider i) = inl e -> i < MAX_RETRIES - 1 ->
  loop (S remaining) i =
  (EFetch url payload :: EConsole Warn [LText (retry_warning i e)]
     :: ESleep (backoff i) :: fst (loop remaining (S i)),
   snd (loop remaining (S i))).
Proof.
  intros H Hi. simpl. rewrite H.
  apply Nat.ltb_lt in Hi. simpl in Hi. rewrite Hi.
  destruct (retry_loop provider url payload remaining (S i)). reflexivity.
Qed.

(** A failed last attempt ends the handler with the final-failure
    response. *)
Lemma loop_give_up (remaining i : nat) (e : Error) :
  attempt (provider i) = inl e -> MAX_RETRIES - 1 <= i ->
  loop (S remaining) i =
  ([EFetch url payload;
    EConsole Err [LText "Gemini API call failed after max retries:";
                  LText (err_message e)];
    ERespond 500 (failure_body msg_call_failed (err_message e))],
   LoopReturned).
Proof.
  intros H Hi. simpl. rewrite H.
  apply Nat.ltb_ge in Hi. simpl in Hi. rewrite Hi. reflexivity.
Qed.

(** [k] failed attempts in a row, none of them the last one the budget
    allows: [k] calls, the delays [backoff i], ..., [backoff (i + k - 1)],
    no response yet, and the loop goes on. *)
Lemma loop_failures (k : nat) : forall remaining i,
  (forall j, j < k -> exists e, attempt (provider (i + j)) = inl e) ->
  i + k <= MAX_RETRIES - 1 ->
  exists pre,
    loop (k + remaining) i =
      ((pre ++ fst (loop remaining (i + k)))%list,
       snd (loop remaining (i + k)))
    /\ fetches pre = repeat (url, payload) k
    /\ sleeps pre = map backoff (seq i k)
    /\ responses pre = [].
Proof.
  induction k as [| k IH]; intros remaining i Hfail Hi.
  - exists []. rewrite Nat.add_0_r. simpl.
    destruct (retry_loop provider url payload remaining i). auto.
  - destruct (Hfail 0) as [e He]; [lia |]. rewrite Nat.add_0_r in He.
    destruct (IH remaining (S i)) as (pre & Hloop & Hf & Hs & Hr).
    + intros j Hj. destruct (Hfail (S j)) as [e' He']; [lia |].
      exists e'. now rewrite Nat.add_succ_comm.
    + lia.
    + exists (EFetch url payload :: EConsole Warn [LText (retry_warning i e)]
                :: ESleep (backoff i) :: pre).
      change (S k + remaining) with (S (k + remaining)).
      rewrite (loop_retry (k + remaining) i e He) by lia.
      rewrite Hloop. simpl.
      rewrite <- Nat.add_succ_comm.
      repeat split.
      * simpl in Hf. now rewrite Hf.
      * simpl in Hs. now rewrite Hs.
      * exact Hr.
Qed.

(** The loop writes no response when it is left with an [apiResponse], and
    exactly one, as its last action, when it returns. *)
Lemma loop_responses (remaining : nat) : forall i,
  match snd (loop remaining i) with
  | LoopDone _ => responses (fst (loop remaining i)) = []
  | LoopReturned =>
      exists pre e,
        fst (loop remaining i) =
          (pre ++ [ERespond 500
                     (failure_body msg_call_failed (err_message e))])%list
        /\ responses pre = []
  end.
Proof.
  induction remaining as [| remaining IH]; intros i; [reflexivity |].
  simpl. destruct (attempt (provider i)) as [e | v]; [| reflexivity].
  destruct (i <? 4)%nat.
  - specialize (IH (S i)).
    destruct (retry_loop provider url payload remaining (S i)) as [rest exit].
    simpl in *. destruct exit; [exact IH |].
    destruct IH as (pre & e' & -> & Hr).
    exists (EFetch url payload :: EConsole Warn [LText (retry_warning i e)]
              :: ESleep (backoff i) :: pre), e'.
    split; [reflexivity | exact Hr].
  - simpl.
    exists [EFetch url payload;
            EConsole Err [LText "Gemini API call failed after max retries:";
                          LText (err_message e)]], e.
    split; reflexivity.
Qed.

(** The loop makes at most one call per iteration left to it. *)
Lemma loop_calls_bound (remaining : nat) : forall i,
  calls (fst (loop remaining i)) <= remaining.
Proof.
  induction remaining as [| remaining IH]; intros i; [apply Nat.le_refl |].
  simpl. destruct (attempt (provider i)); [| unfold calls; simpl; lia].
  destruct (i <? 4)%nat.
  - specialize (IH (S i)).
    destruct (retry_loop provider url payload remaining (S i)).
    unfold calls in *. simpl in *. lia.
  - unfold calls. simpl. lia.
Qed.

(** Every call of the loop sends the same URL and payload, and an
    iteration starts with a call. *)
Lemma loop_fetches (remaining : nat) : forall i,
  fetches (fst (loop remaining i)) =
  repeat (url, payload) (calls (fst (loop remaining i))).
Proof.
  induction remaining as [| remaining IH]; intros i; [reflexivity |].
  simpl. destruct (attempt (provider i)); [| reflexivity].
  destruct (i <? 4)%nat; [| reflexivity].
  specialize (IH (S i)).
  destruct (retry_loop provider url payload remaining (S i)).
  unfold calls in *. simpl in *. now rewrite <- IH.
Qed.

Lemma loop_first_call (remaining i : nat) :
  exists rest, fst (loop (S remaining) i) = EFetch url payload :: rest.
Proof.
  simpl. destruct (attempt (provider i)); [| simpl; eauto].
  destruct (i <? 4)%nat; [| simpl; eauto].
  destruct (retry_loop provider url payload remaining (S i)). simpl. eauto.
Qed.

End LoopFacts.

(** ** The handler around the loop *)

Section Runs.

Variables (env : Env) (req : Request) (provider : nat -> fetch_result).
Variables (url : string) (payload : Payload).
Hypothesis Hprepare : prepare env req = inr (url, payload).

(** [k] failed attempts ([k] within the budget), then a success: the
    handler goes on to parse the envelope of attempt [k]. *)
Lemma handler_success_at (k : nat) (envelope : value) :
  k < MAX_RETRIES ->
  (forall j, j < k -> exists e, attempt (provider j) = inl e) ->
  attempt (provider k) = inr envelope ->
  exists pre,
    handler env req provider =
      ((pre ++ EFetch url payload :: respond_output envelope)%list,
       Resolved)
    /\ fetches pre = repeat (url, payload) k
    /\ sleeps pre = map backoff (seq 0 k)
    /\ responses pre = [].
Proof.
  intros Hk Hfail Hok. unfold handler. rewrite Hprepare.
  destruct (loop_failures provider url payload k (MAX_RETRIES - k) 0)
    as (pre & Hloop & Hf & Hs & Hr).
  - exact Hfail.
  - unfold MAX_RETRIES in *. lia.
  - replace (k + (MAX_RETRIES - k)) with MAX_RETRIES in Hloop
      by (unfold MAX_RETRIES in *; lia).
    rewrite Hloop. change (0 + k) with k.
    destruct (MAX_RETRIES - k) as [| remaining] eqn:Hrem;
      [unfold MAX_RETRIES in *; lia |].
    rewrite (loop_break provider url payload remaining k envelope Hok). simpl fst. simpl snd.
    exists pre. rewrite <- app_assoc. simpl. auto.
Qed.

(** Every attempt of the budget fails: the handler gives up after the
    last one, with that attempt's error. *)
Lemma handler_exhausted :
  (forall j, j < MAX_RETRIES -> exists e, attempt (provider j) = inl e) ->
  exists pre e,
    attempt (provider (MAX_RETRIES - 1)) = inl e
    /\ handler env req provider =
         ((pre ++
           [EFetch url payload;
            EConsole Err [LText "Gemini API call failed after max retries:";
                          LText (err_message e)];
            ERespond 500 (failure_body msg_call_failed (err_message e))])%list,
          Resolved)
    /\ fetches pre = repeat (url, payload) (MAX_RETRIES - 1)
    /\ sleeps pre = map backoff (seq 0 (MAX_RETRIES - 1))
    /\ responses pre = [].
Proof.
  intros Hfail. unfold handler. rewrite Hprepare.
  destruct (loop_failures provider url payload (MAX_RETRIES - 1) 1 0)
    as (pre & Hloop & Hf & Hs & Hr).
  - intros j Hj. apply Hfail. unfold MAX_RETRIES in *. lia.
  - apply Nat.le_refl.
  - destruct (Hfail (MAX_RETRIES - 1)) as [e He];
      [unfold MAX_RETRIES; lia |].
    change (MAX_RETRIES - 1 + 1) with MAX_RETRIES in Hloop.
    rewrite Hloop. change (0 + (MAX_RETRIES - 1)) with (MAX_RETRIES - 1).
    rewrite (loop_give_up provider url payload 0 _ e He) by apply Nat.le_refl.
    simpl fst. simpl snd. exists pre, e. auto.
Qed.

End Runs.

(** ** The output stage *)

(** The [try] block of step 4 only logs. *)
Lemma parse_output_logs (apiResponse : value) :
  fetches (fst (parse_output apiResponse)) = []
  /\ sleeps (fst (parse_output apiResponse)) = []
  /\ responses (fst (parse_output apiResponse)) = [].
Proof.
  unfold parse_output.
  destruct (first_candidate apiResponse) as [e | c]; [now simpl |].
  destruct (text_of c) as [e | t]; [now simpl |].
  destruct (negb (truthy t)); [| now simpl].
  destruct (get_opt c (KName "finishReason")),
           (get_opt c (KName "safetyRatings")); now simpl.
Qed.

(** Reading a property of a value that is neither [undefined] nor [null]
    does not throw. *)
Lemma get_defined (v : value) (k : key) :
  nullish v = false -> exists x, get v k = inr x.
Proof.
  destruct v; simpl; try discriminate; intros _; eauto.
  - destruct k; eauto. destruct (String.get i s); eauto.
  - destruct k; eauto.
Qed.

(** [text_of] succeeds only on a candidate that is there. *)
Lemma text_of_defined (c t : value) :
  text_of c = inr t -> nullish c = false.
Proof. destruct c; simpl; try discriminate; reflexivity. Qed.

(** The envelope carries a text that parses: the success response, and
    nothing else. *)
Lemma respond_output_parsed (apiResponse : value) (text : string)
    (parsed : value) :
  jsonText_of apiResponse = inr (VStr text) ->
  JSON_parse text = inr parsed ->
  respond_output apiResponse = [ERespond 200 parsed].
Proof.
  unfold jsonText_of, respond_output, parse_output. intros Ht Hp.
  destruct (first_candidate apiResponse) as [e | c]; [discriminate |].
  simpl in Ht. rewrite Ht.
  assert (Hne : String.eqb text "" = false).
  { apply String.eqb_neq. intros ->. exact (JSON_parse_empty Hp). }
  simpl. rewrite Hne. simpl. rewrite Hp. reflexivity.
Qed.

(** The envelope has a first candidate with no text: the empty-content
    branch logs the finish reason and the safety ratings, and the caller
    gets the finish reason. *)
Lemma respond_output_empty (apiResponse c t fr sr : value) :
  first_candidate apiResponse = inr c ->
  text_of c = inr t -> truthy t = false ->
  get c (KName "finishReason") = inr fr ->
  get c (KName "safetyRatings") = inr sr ->
  let finishReason := or_else fr (VStr "UNKNOWN") in
  let thrown :=
    match ToString finishReason with
    | inr f => PlainError (msg_empty_content ++ f)
    | inl e => e
    end in
  respond_output apiResponse =
  [EConsole Err [LText "Gemini returned empty content. Finish Reason:";
                 LValue finishReason; LText "Safety:";
                 LJson (or_else sr (VStr "N/A"))];
   EConsole Err [LText "Error parsing or sending final response:";
                 LErr thrown];
   ERespond 500 (failure_body msg_invalid_json (err_message thrown))].
Proof.
  intros Hc Ht Hf Hfr Hsr. unfold respond_output, parse_output.
  rewrite Hc, Ht, Hf. simpl negb. cbv iota.
  pose proof (text_of_defined c t Ht) as Hn.
  unfold get_opt. rewrite Hn, Hfr, Hsr.
  destruct (ToString (or_else fr (VStr "UNKNOWN"))); reflexivity.
Qed.

(** An optional access does not throw. *)
Lemma get_opt_total (v : value) (k : key) : exists x, get_opt v k = inr x.
Proof.
  unfold get_opt. destruct (nullish v) eqn:Hn; [now exists VUndefined |].
  now apply get_defined.
Qed.

(** [apiResponse.candidates?.[0]] throws only when [apiResponse] itself is
    [null] (or [undefined]), and then a [TypeError]. *)
Lemma first_candidate_throws (apiResponse : value) (e : Error) :
  first_candidate apiResponse = inl e ->
  nullish apiResponse = true /\ err_name e = "TypeError".
Proof.
  unfold first_candidate. destruct (nullish apiResponse) eqn:Hn.
  - destruct apiResponse; try discriminate; simpl;
      intros H; injection H as <-; auto.
  - destruct (get_defined apiResponse (KName "candidates") Hn) as [x Hx].
    rewrite Hx. simpl.
    destruct (get_opt_total x (KIndex 0)) as [y Hy]. rewrite Hy.
    discriminate.
Qed.

(** No first candidate: [apiResponse.candidates?.[0]] throws, or gives
    [undefined] or [null] and reading [candidate.content] throws.  Either
    way a [TypeError], caught by the final [catch]. *)
Lemma respond_output_no_candidate (apiResponse : value) :
  (exists e, first_candidate apiResponse = inl e)
  \/ (exists c, first_candidate apiResponse = inr c /\ nullish c = true) ->
  exists e,
    err_name e = "TypeError"
    /\ parse_output apiResponse = ([], inl e)
    /\ respond_output apiResponse =
       [EConsole Err [LText "Error parsing or sending final response:";
                      LErr e];
        ERespond 500 (failure_body msg_invalid_json (err_message e))].
Proof.
  unfold respond_output, parse_output.
  intros [[e He] | [c [Hc Hn]]].
  - exists e. rewrite He.
    destruct (first_candidate_throws apiResponse e He) as [_ Hname].
    repeat split. exact Hname.
  - rewrite Hc. destruct c; try discriminate; simpl;
      eexists; (split; [| split; reflexivity]); reflexivity.
Qed.

(** Whatever the envelope, the final [try]/[catch] writes exactly one
    response, as its last action: 200 with the value [parse_output] gave,
    or 500 with the message of what it threw. *)
Lemma respond_output_one (apiResponse : value) :
  exists logs code body,
    respond_output apiResponse = (logs ++ [ERespond code body])%list
    /\ fetches logs = [] /\ sleeps logs = [] /\ responses logs = []
    /\ match snd (parse_output apiResponse) with
       | inr parsed => code = 200%N /\ body = parsed
       | inl e =>
           code = 500%N
           /\ body = failure_body msg_invalid_json (err_message e)
       end.
Proof.
  unfold respond_output.
  destruct (parse_output_logs apiResponse) as (Hf & Hs & Hr).
  destruct (parse_output apiResponse) as [logs [e | parsed]]; simpl in *.
  - exists (logs ++ [EConsole Err
                       [LText "Error parsing or sending final response:";
                        LErr e]])%list, 500%N,
           (failure_body msg_invalid_json (err_message e)).
    rewrite <- app_assoc, fetches_app, sleeps_app, responses_app, Hf, Hs, Hr.
    simpl. auto 6.
  - exists logs, 200%N, parsed. auto 6.
Qed.

(** ** Steps 1 and 2 *)

(** How the handler can end before the outbound call: with one response,
    or, when a template literal cannot interpolate the prompt or the
    hardware data, with an exception and no response. *)
Lemma prepare_ends (env : Env) (req : Request)
    (t : list event) (c : completion) :
  prepare env req = inl (t, c) ->
  (c = Resolved /\ fetches t = [] /\
   exists logs code body,
     t = (logs ++ [ERespond code body])%list /\ responses logs = [])
  \/ (t = [] /\ exists e p h,
        c = Rejected e /\ destructure (body req) = inr (p, h)
        /\ truthy p = true /\ (converts p = false \/ converts h = false)).
Proof.
  unfold prepare.
  destruct (negb (method req =? "POST")%string).
  { intros H. injection H as <- <-. left. repeat split.
    exists [], 405%N. eexists. split; reflexivity. }
  destruct (key_missing (GEMINI_API_KEY env)).
  { intros H. injection H as <- <-. left. repeat split.
    eexists [_], 500%N. eexists. split; reflexivity. }
  destruct (destructure (body req)) as [e | [p h]].
  { intros H. injection H as <- <-. left. repeat split.
    exists [], 400%N. eexists. split; reflexivity. }
  destruct (truthy p) eqn:Hp; simpl.
  2: { intros H. injection H as <- <-. left. repeat split.
       exists [], 400%N. eexists. split; reflexivity. }
  unfold systemPrompt, userQuery.
  destruct (ToString p) as [e | sp] eqn:Hsp; simpl.
  { intros H. injection H as <- <-. right. split; [reflexivity |].
    exists e, p, h. unfold converts. rewrite Hsp. auto. }
  destruct (ToString h) as [e | sh] eqn:Hsh; simpl.
  { intros H. injection H as <- <-. right. split; [reflexivity |].
    exists e, p, h. unfold converts. rewrite Hsh. auto. }
  discriminate.
Qed.

(** What the payload is made of when the handler goes on to the call. *)
Lemma prepare_goes_on (env : Env) (req : Request)
    (url : string) (payload : Payload) :
  prepare env req = inr (url, payload) ->
  exists k p h sp uq,
    method req = "POST"
    /\ GEMINI_API_KEY env = Some k /\ k <> ""
    /\ destructure (body req) = inr (p, h) /\ truthy p = true
    /\ systemPrompt p = inr sp /\ userQuery p h = inr uq
    /\ url = apiUrl k /\ payload = mkpayload uq sp.
Proof.
  unfold prepare.
  destruct (method req =? "POST")%string eqn:Hm; simpl; [| discriminate].
  destruct (GEMINI_API_KEY env) as [k |] eqn:Hk; simpl; [| discriminate].
  destruct (k =? "")%string eqn:Hk0; [discriminate |].
  destruct (destructure (body req)) as [e | [p h]]; [discriminate |].
  destruct (truthy p) eqn:Hp; simpl; [| discriminate].
  destruct (systemPrompt p) as [e | sp] eqn:Hsp; [discriminate |].
  destruct (userQuery p h) as [e | uq] eqn:Huq; [discriminate |].
  intros H. injection H as <- <-.
  exists k, p, h, sp, uq. apply String.eqb_eq in Hm.
  apply String.eqb_neq in Hk0. auto 10.
Qed.

(** ** The retry budget *)

(** A 429 is thrown as an error by the attempt. *)
Lemma attempt_429 (fr : fetch_result) :
  (exists r, fr = Resolves r /\ status r = 429%N) ->
  exists e, attempt fr = inl e.
Proof.
  intros (r & -> & Hs). apply attempt_not_ok, ok_false_of_status.
  rewrite Hs. lia.
Qed.

(** No invocation makes more than [MAX_RETRIES] outbound calls. *)
Lemma handler_calls_bound (env : Env) (req : Request)
    (provider : nat -> fetch_result) :
  calls (fst (handler env req provider)) <= MAX_RETRIES.
Proof.
  unfold handler.
  destruct (prepare env req) as [[t c] | [url payload]] eqn:Hprep.
  - destruct (prepare_ends env req t c Hprep)
      as [(_ & Hf & _) | (-> & _)]; unfold calls; simpl.
    + rewrite Hf. simpl. lia.
    + lia.
  - pose proof (loop_calls_bound provider url payload MAX_RETRIES 0) as Hb.
    destruct (retry_loop provider url payload MAX_RETRIES 0) as [evs exit].
    simpl in Hb. destruct exit as [apiResponse |]; simpl; [| exact Hb].
    destruct (respond_output_one apiResponse)
      as (logs & code & body & -> & Hl & _).
    rewrite !calls_app. unfold calls in *. rewrite Hl. simpl. lia.
Qed.

(** C2. When the provider answers 429 to every attempt, the handler makes
    exactly 5 outbound calls and then responds 500 with a body of two
    fields, the call-failed [message] and, as [errorDetails], the message
    of the error the fifth attempt threw: for an error body whose message
    converts to text, the 429 message built from it. *)
Theorem rate_limit_exhausts_budget (env : Env) (req : Request)
    (provider : nat -> fetch_result) (url : string) (payload : Payload) :
  prepare env req = inr (url, payload) ->
  (forall i, i < MAX_RETRIES ->
     exists r, provider i = Resolves r /\ status r = 429%N) ->
  exists e,
    attempt (provider 4) = inl e
    /\ calls (fst (handler env req provider)) = 5
    /\ responses (fst (handler env req provider)) =
         [(500%N, VObj [("message", VStr msg_call_failed);
                        ("errorDetails", VStr (err_message e))])]
    /\ snd (handler env req provider) = Resolved
    /\ (forall r m t,
          provider 4 = Resolves r -> errorMessage_of r = inr m ->
          ToString m = inr t ->
          err_message e =
            "API returned status 429. Retrying... Message: " ++ t).
Proof.
  intros Hprep H429.
  assert (Hfail : forall j, j < MAX_RETRIES ->
                   exists e, attempt (provider j) = inl e).
  { intros j Hj. apply attempt_429. auto. }
  destruct (handler_exhausted env req provider url payload Hprep Hfail)
    as (pre & e & He & Hh & Hf & Hs & Hr).
  exists e. change (MAX_RETRIES - 1) with 4 in *.
  rewrite Hh. simpl fst. simpl snd.
  rewrite calls_app, responses_app. unfold calls. rewrite Hf, Hr.
  repeat split; try reflexivity; try exact He.
  intros r m t Hp Hm Ht.
  destruct (H429 4) as (r' & Hr' & Hs'); [unfold MAX_RETRIES; lia |].
  rewrite Hp in Hr'. injection Hr' as <-.
  rewrite Hp, (attempt_rate_limited r m t Hs' Hm Ht) in He.
  injection He as <-. reflexivity.
Qed.

(** C3. When the provider answers 429 to attempts 1 to 4 and attempt 5
    succeeds with an envelope that carries valid JSON text, the handler
    makes exactly 5 outbound calls, waits 1, 2, 4 and 8 seconds between
    them (15 in all) and responds 200 with the parsed value. *)
Theorem fifth_attempt_succeeds (env : Env) (req : Request)
    (provider : nat -> fetch_result) (url : string) (payload : Payload)
    (r : Response) (envelope : value) (text : string) (parsed : value) :
  prepare env req = inr (url, payload) ->
  (forall i, i < 4 -> exists r', provider i = Resolves r' /\ status r' = 429%N) ->
  provider 4 = Resolves r -> ok r = true -> json r = inr envelope ->
  jsonText_of envelope = inr (VStr text) ->
  JSON_parse text = inr parsed ->
  calls (fst (handler env req provider)) = 5
  /\ sleeps (fst (handler env req provider)) = [1000; 2000; 4000; 8000]%N
  /\ fold_right N.add 0%N (sleeps (fst (handler env req provider))) = 15000%N
  /\ responses (fst (handler env req provider)) = [(200%N, parsed)]
  /\ snd (handler env req provider) = Resolved.
Proof.
  intros Hprep H429 Hp Hok Hjson Htext Hparse.
  assert (Hatt : attempt (provider 4) = inr envelope).
  { rewrite Hp. unfold attempt. rewrite Hok. exact Hjson. }
  assert (Hfail : forall j, j < 4 -> exists e, attempt (provider j) = inl e).
  { intros j Hj. apply attempt_429. auto. }
  assert (Hk : 4 < MAX_RETRIES) by (unfold MAX_RETRIES; lia).
  destruct (handler_success_at env req provider url payload Hprep 4 envelope
              Hk Hfail Hatt) as (pre & Hh & Hf & Hs & Hr).
  rewrite Hh, (respond_output_parsed envelope text parsed Htext Hparse).
  simpl fst. simpl snd.
  rewrite calls_app, sleeps_app, responses_app. unfold calls.
  rewrite Hf, Hs, Hr. repeat split; reflexivity.
Qed.

(** ** The output *)

(** C6. Whenever an attempt within the budget succeeds and the envelope
    carries text that parses, the handler responds 200 and the body is the
    value [JSON.parse] gave, whatever its shape: nothing is checked against
    the schema and nothing is changed. *)
Theorem parsed_json_is_the_body (env : Env) (req : Request)
    (provider : nat -> fetch_result) (url : string) (payload : Payload)
    (k : nat) (envelope : value) (text : string) (parsed : value) :
  prepare env req = inr (url, payload) ->
  k < MAX_RETRIES ->
  (forall j, j < k -> exists e, attempt (provider j) = inl e) ->
  attempt (provider k) = inr envelope ->
  jsonText_of envelope = inr (VStr text) ->
  JSON_parse text = inr parsed ->
  responses (fst (handler env req provider)) = [(200%N, parsed)]
  /\ snd (handler env req provider) = Resolved.
Proof.
  intros Hprep Hk Hfail Hatt Htext Hparse.
  destruct (handler_success_at env req provider url payload Hprep k envelope
              Hk Hfail Hatt) as (pre & Hh & _ & _ & Hr).
  rewrite Hh, (respond_output_parsed envelope text parsed Htext Hparse).
  simpl fst. simpl snd. rewrite responses_app, Hr. split; reflexivity.
Qed.

(** C7, as the code has it.  Whenever an attempt within the budget succeeds
    and the first candidate of the envelope has no text, and the
    candidate's finish reason ([UNKNOWN] when it has none) converts to
    text, as every string does, the handler makes no further call and
    responds 500 with a body of two fields: the invalid-JSON [message]
    and, as [errorDetails], the empty-content sentence ending in the
    finish reason.  The safety ratings are written to the error log only:
    the response has no field for them. *)
Theorem empty_content_reports_finish_reason (env : Env) (req : Request)
    (provider : nat -> fetch_result) (url : string) (payload : Payload)
    (k : nat) (envelope c t fr sr : value) (f : string) :
  prepare env req = inr (url, payload) ->
  k < MAX_RETRIES ->
  (forall j, j < k -> exists e, attempt (provider j) = inl e) ->
  attempt (provider k) = inr envelope ->
  first_candidate envelope = inr c ->
  text_of c = inr t -> truthy t = false ->
  get c (KName "finishReason") = inr fr ->
  get c (KName "safetyRatings") = inr sr ->
  ToString (if truthy fr then fr else VStr "UNKNOWN") = inr f ->
  calls (fst (handler env req provider)) = S k
  /\ responses (fst (handler env req provider)) =
       [(500%N,
         VObj [("message", VStr msg_invalid_json);
               ("errorDetails",
                VStr ("Gemini returned empty content. Finish Reason: "
                      ++ f))])]
  /\ In (Err, [LText "Gemini returned empty content. Finish Reason:";
               LValue (if truthy fr then fr else VStr "UNKNOWN");
               LText "Safety:";
               LJson (if truthy sr then sr else VStr "N/A")])
        (logged (fst (handler env req provider)))
  /\ snd (handler env req provider) = Resolved.
Proof.
  intros Hprep Hk Hfail Hatt Hc Ht Hf Hfr Hsr Hs.
  destruct (handler_success_at env req provider url payload Hprep k envelope
              Hk Hfail Hatt) as (pre & Hh & Hfe & _ & Hr).
  rewrite Hh, (respond_output_empty envelope c t fr sr Hc Ht Hf Hfr Hsr).
  simpl fst. simpl snd.
  rewrite calls_app, responses_app, logged_app. unfold calls.
  rewrite Hfe, Hr, repeat_length. unfold or_else in *. rewrite Hs. simpl.
  repeat split.
  - lia.
  - apply in_or_app. right. left. reflexivity.
Qed.

(** ** The gates of step 1 *)

(** C4, as the code has it.  A POST request that arrives with no API key
    configured gets the 500 response with code [NO_API_KEY_CONFIGURED] and
    no outbound call is made, whatever its body: the key is checked before
    the body is read. *)
Theorem missing_key_is_reported_first (env : Env) (req : Request)
    (provider : nat -> fetch_result) :
  method req = "POST" ->
  key_missing (GEMINI_API_KEY env) = true ->
  calls (fst (handler env req provider)) = 0
  /\ responses (fst (handler env req provider)) =
       [(500%N, VObj [("message", VStr msg_no_api_key);
                      ("errorCode", VStr "NO_API_KEY_CONFIGURED")])]
  /\ snd (handler env req provider) = Resolved.
Proof.
  intros Hm Hk. unfold handler, prepare.
  rewrite Hm, Hk. simpl. auto.
Qed.

(** An object without an own property [k] reads [undefined] at [k]. *)
Lemma lookup_absent (k : string) (fields : list (string * value)) :
  has_own k fields = false -> lookup k fields = VUndefined.
Proof.
  induction fields as [| [k' v] rest IH]; simpl; [reflexivity |].
  destruct (String.eqb k k'); simpl; [discriminate | exact IH].
Qed.

(** A value one property of which was read is neither [undefined] nor
    [null]. *)
Lemma get_inr_defined (v x : value) (k : key) :
  get v k = inr x -> nullish v = false.
Proof. destruct v; simpl; try discriminate; reflexivity. Qed.

(** With the method and the key in order, a prompt that is not truthy is
    answered 400 before any call. *)
Lemma falsy_prompt_rejected (env : Env) (req : Request)
    (provider : nat -> fetch_result) (b p : value) :
  method req = "POST" ->
  key_missing (GEMINI_API_KEY env) = false ->
  body req = inr b -> get b (KName "prompt") = inr p -> truthy p = false ->
  handler env req provider =
  ([ERespond 400 (VObj [("message", VStr msg_prompt_required)])], Resolved).
Proof.
  intros Hm Hk Hb Hp Hf. unfold handler, prepare, destructure.
  rewrite Hm, Hk, Hb. simpl. rewrite Hp. simpl.
  destruct (get_defined b (KName "hardwareData")
              (get_inr_defined b p (KName "prompt") Hp)) as [h Hh].
  rewrite Hh. simpl. rewrite Hf. reflexivity.
Qed.

(** C5, as the code has it.  A POST request that arrives with the API key
    configured and whose body cannot be parsed, has no prompt field, or has
    the empty string as prompt gets a 400 response, and no outbound call is
    made. *)
Theorem missing_prompt_is_rejected (env : Env) (req : Request)
    (provider : nat -> fetch_result) :
  method req = "POST" ->
  key_missing (GEMINI_API_KEY env) = false ->
  (exists e, body req = inl e)
  \/ (exists fields,
        body req = inr (VObj fields) /\ has_own "prompt" fields = false)
  \/ (exists b,
        body req = inr b /\ get b (KName "prompt") = inr (VStr "")) ->
  calls (fst (handler env req provider)) = 0
  /\ (exists m,
        responses (fst (handler env req provider)) =
          [(400%N, VObj [("message", VStr m)])])
  /\ snd (handler env req provider) = Resolved.
Proof.
  intros Hm Hk [[e Hb] | [[fields [Hb Ha]] | [b [Hb Hp]]]].
  - unfold handler, prepare, destructure. rewrite Hm, Hk, Hb. simpl. eauto.
  - rewrite (falsy_prompt_rejected env req provider (VObj fields) VUndefined
               Hm Hk Hb); simpl; eauto.
    now rewrite (lookup_absent "prompt" fields Ha).
  - rewrite (falsy_prompt_rejected env req provider b (VStr "") Hm Hk Hb Hp);
      simpl; eauto.
Qed.

(** ** One response *)

(** C8, as the code has it.  Whenever the prompt, if truthy, and the
    hardware data can be interpolated into a template literal (as every
    string, number, boolean, [null] and [undefined] can), the handler ends
    normally and has written exactly one response, as its last action. *)
Theorem exactly_one_response (env : Env) (req : Request)
    (provider : nat -> fetch_result) :
  (forall p h, destructure (body req) = inr (p, h) -> truthy p = true ->
     converts p = true /\ converts h = true) ->
  snd (handler env req provider) = Resolved
  /\ length (responses (fst (handler env req provider))) = 1
  /\ exists pre code body,
       fst (handler env req provider) = (pre ++ [ERespond code body])%list
       /\ responses pre = [].
Proof.
  intros Hconv.
  assert (Hone : forall pre code body,
             responses pre = [] ->
             length (responses (pre ++ [ERespond code body])) = 1).
  { intros pre code body H. now rewrite responses_app, H. }
  unfold handler.
  destruct (prepare env req) as [[t c] | [url payload]] eqn:Hprep.
  - destruct (prepare_ends env req t c Hprep)
      as [(-> & _ & logs & code & body & -> & Hr)
         | (_ & e & p & h & _ & Hd & Hp & Hbad)].
    + simpl. eauto 8.
    + destruct (Hconv p h Hd Hp) as [Hcp Hch].
      destruct Hbad as [Hbad | Hbad]; congruence.
  - pose proof (loop_responses provider url payload MAX_RETRIES 0) as Hloop.
    destruct (retry_loop provider url payload MAX_RETRIES 0) as [evs exit].
    simpl in Hloop. destruct exit as [apiResponse |].
    + destruct (respond_output_one apiResponse)
        as (logs & code & body & -> & _ & _ & Hr & _).
      simpl. rewrite app_assoc.
      assert (Hpre : responses (evs ++ logs) = [])
        by now rewrite responses_app, Hloop, Hr.
      eauto 8.
    + destruct Hloop as (pre & e & -> & Hr). simpl. eauto 8.
Qed.

(** ** The user query *)

(** C9. When the body of an accepted request has no [hardwareData] field,
    the user text of every outbound call (there is at least one) ends with
    the table heading followed by the word [undefined]. *)
Theorem absent_table_reads_undefined (env : Env) (req : Request)
    (provider : nat -> fetch_result) (url : string) (payload : Payload)
    (fields : list (string * value)) :
  prepare env req = inr (url, payload) ->
  body req = inr (VObj fields) ->
  has_own "hardwareData" fields = false ->
  (exists p,
     ToString (lookup "prompt" fields) = inr p
     /\ contents_text payload =
          userQuery_head ++ p ++ userQuery_table ++ "undefined")
  /\ 1 <= calls (fst (handler env req provider))
  /\ fetches (fst (handler env req provider)) =
       repeat (url, payload) (calls (fst (handler env req provider))).
Proof.
  intros Hprep Hb Ha.
  destruct (prepare_goes_on env req url payload Hprep)
    as (k & p & h & sp & uq & _ & _ & _ & Hd & _ & _ & Huq & _ & ->).
  unfold destructure in Hd. rewrite Hb in Hd. simpl in Hd.
  rewrite (lookup_absent "hardwareData" fields Ha) in Hd. simpl in Hd.
  injection Hd as <- <-.
  split.
  - unfold userQuery in Huq.
    destruct (ToString (lookup "prompt" fields)) as [e | t];
      [discriminate |].
    simpl in Huq. injection Huq as <-. exists t. split; reflexivity.
  - unfold handler. rewrite Hprep.
    pose proof (loop_fetches provider url (mkpayload uq sp) MAX_RETRIES 0)
      as Hf.
    destruct (loop_first_call provider url (mkpayload uq sp) 4 0)
      as [rest Hfirst].
    change (S 4) with MAX_RETRIES in Hfirst.
    destruct (retry_loop provider url (mkpayload uq sp) MAX_RETRIES 0)
      as [evs exit].
    simpl in Hf, Hfirst.
    assert (Hout : forall a, fetches (respond_output a) = []).
    { intros a.
      destruct (respond_output_one a) as (logs & c & b & -> & Hl & _).
      now rewrite fetches_app, Hl. }
    destruct exit as [apiResponse |]; simpl fst; unfold calls in *.
    + rewrite fetches_app, (Hout apiResponse), app_nil_r.
      split; [rewrite Hfirst; simpl; lia | exact Hf].
    + split; [rewrite Hfirst; simpl; lia | exact Hf].
Qed.

(** ** Envelopes of any shape *)

(** The error thrown on the way to the text when there is no first
    candidate: reading [candidates] of an envelope that is [null], or
    reading [content] of a candidate that is [undefined] or [null]. *)
Lemma no_candidate_error (apiResponse : value) :
  (exists e, first_candidate apiResponse = inl e)
  \/ (exists c, first_candidate apiResponse = inr c /\ nullish c = true) ->
  exists w prop,
    (w = "undefined" \/ w = "null")
    /\ (prop = "candidates" /\ nullish apiResponse = true
        \/ prop = "content" /\ nullish apiResponse = false)
    /\ parse_output apiResponse =
       ([], inl (TypeError ("Cannot read properties of " ++ w
                            ++ " (reading '" ++ prop ++ "')"))).
Proof.
  unfold parse_output. intros [[e He] | [c [Hc Hn]]].
  - destruct (first_candidate_throws apiResponse e He) as [Hnull _].
    destruct apiResponse; try discriminate.
    + exists "undefined", "candidates". repeat split; auto.
    + exists "null", "candidates". repeat split; auto.
  - rewrite Hc.
    assert (Hd : nullish apiResponse = false).
    { destruct (nullish apiResponse) eqn:Hna; [| reflexivity].
      destruct apiResponse; discriminate. }
    destruct c; try discriminate.
    + exists "undefined", "content". auto.
    + exists "null", "content". auto.
Qed.

(** C10. Whatever value the provider's envelope is, the output stage ends
    with exactly one response and no exception escapes it: 200 with the
    parsed value when the [try] block got one, and otherwise 500 with the
    invalid-JSON [message] and, as [errorDetails], the message of the
    error the block threw.  When there is no first candidate
    ([candidates] absent, empty, or the envelope itself [null]), what the
    block threw is the [TypeError] of reading a property of [undefined] or
    [null]: the final [catch] logs it and reports its text as
    [errorDetails] under the invalid-JSON message, and the empty-content
    branch is not taken and logs nothing. *)
Theorem any_envelope_gets_a_response (apiResponse : value) :
  (exists logs code body,
     respond_output apiResponse = (logs ++ [ERespond code body])%list
     /\ responses logs = []
     /\ match snd (parse_output apiResponse) with
        | inr parsed => code = 200%N /\ body = parsed
        | inl e =>
            code = 500%N
            /\ body = VObj [("message", VStr msg_invalid_json);
                            ("errorDetails", VStr (err_message e))]
        end)
  /\ ((exists e, first_candidate apiResponse = inl e)
      \/ (exists c, first_candidate apiResponse = inr c /\ nullish c = true)
      -> exists w prop,
           (w = "undefined" \/ w = "null")
           /\ (prop = "candidates" /\ nullish apiResponse = true
               \/ prop = "content" /\ nullish apiResponse = false)
           /\ parse_output apiResponse =
              ([], inl (TypeError ("Cannot read properties of " ++ w
                                   ++ " (reading '" ++ prop ++ "')")))
           /\ respond_output apiResponse =
              [EConsole Err
                 [LText "Error parsing or sending final response:";
                  LErr (TypeError ("Cannot read properties of " ++ w
                                   ++ " (reading '" ++ prop ++ "')"))];
               ERespond 500
                 (VObj [("message", VStr msg_invalid_json);
                        ("errorDetails",
                         VStr ("Cannot read properties of " ++ w
                               ++ " (reading '" ++ prop ++ "')"))])]).
Proof.
  split.
  - destruct (respond_output_one apiResponse)
      as (logs & code & body & Ho & _ & _ & Hr & Hc).
    exists logs, code, body. auto.
  - intros Hmiss.
    destruct (no_candidate_error apiResponse Hmiss)
      as (w & prop & Hw & Hp & Ho).
    exists w, prop. repeat split; try assumption.
    unfold respond_output. rewrite Ho. reflexivity.
Qed.

(** ** Statuses 403 and 400 *)

(** The error thrown for a 403 or a 400 is caught like any other: before
    the last attempt the handler waits and calls again. *)
Lemma forbidden_is_retried (env : Env) (req : Request)
    (provider : nat -> fetch_result) (url : string) (payload : Payload)
    (r : Response) :
  prepare env req = inr (url, payload) ->
  provider 0 = Resolves r ->
  status r = 403%N \/ status r = 400%N ->
  exists e rest,
    fst (handler env req provider) =
      EFetch url payload :: EConsole Warn [LText (retry_warning 0 e)]
        :: ESleep 1000 :: EFetch url payload :: rest.
Proof.
  intros Hprep Hp Hs. unfold handler. rewrite Hprep.
  destruct (attempt_not_ok r) as [e He].
  { apply ok_false_of_status. destruct Hs as [-> | ->]; lia. }
  rewrite <- Hp in He.
  change MAX_RETRIES with (S 4).
  rewrite (loop_retry provider url payload 4 0 e He)
    by (unfold MAX_RETRIES; lia).
  destruct (loop_first_call provider url payload 3 1) as [rest Hrest].
  destruct (retry_loop provider url payload 4 1) as [evs exit].
  cbn [fst snd] in *. subst evs.
  destruct exit; cbn [fst]; eexists; eexists; reflexivity.
Qed.

(** * Further properties of the handler *)

(** ** The gates, in order *)

(** X1. A request whose method is not POST is answered 405 and nothing
    else happens: the key is not looked at and the body is not read. *)
Theorem other_methods_get_405 (env : Env) (req : Request)
    (provider : nat -> fetch_result) :
  method req <> "POST" ->
  handler env req provider =
  ([ERespond 405 (VObj [("message", VStr msg_method_not_allowed)])],
   Resolved).
Proof.
  intros Hm. unfold handler, prepare.
  apply String.eqb_neq in Hm. rewrite Hm. reflexivity.
Qed.

(** What the handler does before the call makes no call and waits for
    nothing. *)
Lemma prepare_quiet (env : Env) (req : Request)
    (t : list event) (c : completion) :
  prepare env req = inl (t, c) -> fetches t = [] /\ sleeps t = [].
Proof.
  unfold prepare.
  destruct (negb (method req =? "POST")%string);
    [intros H; injection H as <- <-; auto |].
  destruct (key_missing (GEMINI_API_KEY env));
    [intros H; injection H as <- <-; auto |].
  destruct (destructure (body req)) as [e | [p h]];
    [intros H; injection H as <- <-; auto |].
  destruct (negb (truthy p)); [intros H; injection H as <- <-; auto |].
  destruct (systemPrompt p); [intros H; injection H as <- <-; auto |].
  destruct (userQuery p h); [intros H; injection H as <- <-; auto |].
  discriminate.
Qed.

Lemma calls_fetch_cons (u : string) (p : Payload) (t : list event) :
  calls (EFetch u p :: t) = S (calls t).
Proof. reflexivity. Qed.

(** X2. An outbound call is made exactly when the method is POST, the key
    is configured, the body can be read and destructured, the prompt is
    truthy, and the prompt and the hardware data can be interpolated. *)
Theorem call_is_made_iff_accepted (env : Env) (req : Request)
    (provider : nat -> fetch_result) :
  1 <= calls (fst (handler env req provider)) <->
  method req = "POST"
  /\ key_missing (GEMINI_API_KEY env) = false
  /\ exists p h,
       destructure (body req) = inr (p, h) /\ truthy p = true
       /\ converts p = true /\ converts h = true.
Proof.
  split.
  - intros Hcalls. unfold handler in Hcalls.
    destruct (prepare env req) as [[t c] | [url payload]] eqn:Hprep.
    + destruct (prepare_quiet env req t c Hprep) as [Hf _].
      unfold calls in Hcalls. simpl in Hcalls. rewrite Hf in Hcalls.
      simpl in Hcalls. lia.
    + destruct (prepare_goes_on env req url payload Hprep)
        as (k & p & h & sp & uq & Hm & Hk & Hk0 & Hd & Hp & Hsp & Huq & _).
      split; [exact Hm |]. split.
      { rewrite Hk. simpl. now apply String.eqb_neq. }
      exists p, h. unfold converts.
      unfold systemPrompt in Hsp. unfold userQuery in Huq.
      destruct (ToString p); [discriminate |].
      destruct (ToString h); [discriminate |]. auto.
  - intros (Hm & Hk & p & h & Hd & Hp & Hcp & Hch).
    assert (Hprep : exists url payload, prepare env req = inr (url, payload)).
    { unfold prepare. rewrite Hm, Hk, Hd, Hp. simpl.
      unfold systemPrompt, userQuery. unfold converts in Hcp, Hch.
      destruct (ToString p) as [e | sp]; [discriminate |].
      destruct (ToString h) as [e | sh]; [discriminate |]. simpl. eauto. }
    destruct Hprep as (url & payload & Hprep).
    unfold handler. rewrite Hprep.
    destruct (loop_first_call provider url payload 4 0) as [rest Hrest].
    change (S 4) with MAX_RETRIES in Hrest.
    destruct (retry_loop provider url payload MAX_RETRIES 0) as [evs exit].
    cbn [fst] in Hrest. subst evs.
    destruct exit; cbn [fst]; [rewrite <- app_comm_cons |];
      rewrite calls_fetch_cons; lia.
Qed.

(** X3. With the method and the key in order, a body that is [null] or
    absent is answered 400 with the invalid-body message; any other body
    that is not an object with a truthy prompt (a string, a number, an
    array, an object without one) is answered 400 with the
    prompt-required message. *)
Theorem body_without_prompt_messages (env : Env) (req : Request)
    (provider : nat -> fetch_result) (v : value) :
  method req = "POST" ->
  key_missing (GEMINI_API_KEY env) = false ->
  body req = inr v ->
  match v with
  | VObj fields => truthy (lookup "prompt" fields) = false
  | _ => True
  end ->
  handler env req provider =
  ([ERespond 400
      (VObj [("message",
              VStr (if nullish v then msg_invalid_body
                    else msg_prompt_required))])],
   Resolved).
Proof.
  intros Hm Hk Hb Hv. unfold handler, prepare, destructure.
  rewrite Hm, Hk, Hb. simpl.
  destruct v; simpl; try reflexivity.
  rewrite Hv. reflexivity.
Qed.

(** ** One attempt *)

(** X4. An attempt gives the handler an envelope exactly when [fetch]
    resolves with a status in 200-299 and a body that parses as JSON; the
    envelope is that body.  A rejection, any other status, or a body that
    does not parse makes the attempt throw. *)
Theorem attempt_succeeds_iff (fr : fetch_result) (envelope : value) :
  attempt fr = inr envelope <->
  exists r, fr = Resolves r /\ ok r = true /\ json r = inr envelope.
Proof.
  split.
  - destruct fr as [e | r]; [discriminate |].
    destruct (ok r) eqn:Hok.
    + unfold attempt. rewrite Hok. simpl. intros H. exists r. auto.
    + destruct (attempt_not_ok r Hok) as [e He]. rewrite He. discriminate.
  - intros (r & -> & Hok & Hj). unfold attempt. rewrite Hok. exact Hj.
Qed.

(** The error thrown for a response that is not [ok], once its error
    message is known and converts to text. *)
Lemma attempt_status_error (r : Response) (m : value) (t : string) :
  ok r = false -> errorMessage_of r = inr m -> ToString m = inr t ->
  attempt (Resolves r) =
  inl (PlainError (status_error_text (status r) t)).
Proof.
  intros Hok Hm Ht. unfold attempt, status_error_text.
  rewrite Hok, Hm. simpl.
  destruct ((status r =? 403) || (status r =? 400))%N;
    [rewrite Ht; reflexivity |].
  destruct ((status r =? 429) || (500 <=? status r))%N;
    rewrite Ht; reflexivity.
Qed.

(** X5. When a response that is not [ok] has a body that is not JSON, or
    one that is an object without an [error] property, the error thrown
    carries the response's status text. *)
Theorem status_text_is_the_fallback (r : Response) :
  ok r = false ->
  (exists e, json r = inl e)
  \/ (exists fields,
        json r = inr (VObj fields) /\ has_own "error" fields = false) ->
  attempt (Resolves r) =
  inl (PlainError (status_error_text (status r) (statusText r))).
Proof.
  intros Hok Hbody.
  apply (attempt_status_error r (VStr (statusText r))); auto.
  unfold errorMessage_of.
  destruct Hbody as [[e ->] | [fields [-> Ha]]]; simpl.
  - reflexivity.
  - rewrite (lookup_absent "error" fields Ha). reflexivity.
Qed.

(** X6. When a response that is not [ok] has a JSON body whose [error]
    object has a non-empty [message] string, the error thrown carries that
    message and not the status text. *)
Theorem provider_message_is_preferred (r : Response)
    (fields efields : list (string * value)) (m : string) :
  ok r = false ->
  json r = inr (VObj fields) ->
  lookup "error" fields = VObj efields ->
  lookup "message" efields = VStr m ->
  m <> "" ->
  attempt (Resolves r) = inl (PlainError (status_error_text (status r) m)).
Proof.
  intros Hok Hj He Hm Hne.
  apply (attempt_status_error r (VStr m)); auto.
  unfold errorMessage_of. rewrite Hj. simpl. rewrite He. simpl.
  rewrite Hm. simpl. apply String.eqb_neq in Hne. rewrite Hne. reflexivity.
Qed.

(** ** The loop, whatever fails *)

(** X7. When none of the five attempts gives an envelope (each one
    rejects, or resolves with a status outside 200-299, or with a body that
    does not parse), the handler does this and nothing else: it calls,
    logs a warning and waits 1 second; calls, warns and waits 2; calls,
    warns and waits 4; calls, warns and waits 8; calls a fifth time, logs
    the failure and responds 500 with the call-failed [message] and, as
    [errorDetails], the message of the error of the fifth attempt.  All
    five calls send the same URL and payload, and a rejection's error is
    passed on as it is. *)
Theorem every_failure_is_retried (env : Env) (req : Request)
    (provider : nat -> fetch_result) (url : string) (payload : Payload) :
  prepare env req = inr (url, payload) ->
  (forall j r, j < MAX_RETRIES -> provider j = Resolves r -> ok r = true ->
     exists e, json r = inl e) ->
  exists e0 e1 e2 e3 e4,
    attempt (provider 0) = inl e0 /\ attempt (provider 1) = inl e1
    /\ attempt (provider 2) = inl e2 /\ attempt (provider 3) = inl e3
    /\ attempt (provider 4) = inl e4
    /\ handler env req provider =
       ([EFetch url payload;
         EConsole Warn [LText (retry_warning 0 e0)]; ESleep 1000;
         EFetch url payload;
         EConsole Warn [LText (retry_warning 1 e1)]; ESleep 2000;
         EFetch url payload;
         EConsole Warn [LText (retry_warning 2 e2)]; ESleep 4000;
         EFetch url payload;
         EConsole Warn [LText (retry_warning 3 e3)]; ESleep 8000;
         EFetch url payload;
         EConsole Err [LText "Gemini API call failed after max retries:";
                       LText (err_message e4)];
         ERespond 500 (VObj [("message", VStr msg_call_failed);
                             ("errorDetails", VStr (err_message e4))])],
        Resolved)
    /\ (forall e', provider 4 = Rejects e' -> e4 = e').
Proof.
  intros Hprep Hbad.
  assert (Hfail : forall j, j < MAX_RETRIES ->
                   exists e, attempt (provider j) = inl e).
  { intros j Hj. destruct (attempt (provider j)) as [e | v] eqn:Ha;
      [now exists e |].
    apply attempt_succeeds_iff in Ha. destruct Ha as (r & Hr & Hok & Hjs).
    destruct (Hbad j r Hj Hr Hok) as [e He]. rewrite He in Hjs.
    discriminate. }
  destruct (Hfail 0) as [e0 H0]; [unfold MAX_RETRIES; lia |].
  destruct (Hfail 1) as [e1 H1]; [unfold MAX_RETRIES; lia |].
  destruct (Hfail 2) as [e2 H2]; [unfold MAX_RETRIES; lia |].
  destruct (Hfail 3) as [e3 H3]; [unfold MAX_RETRIES; lia |].
  destruct (Hfail 4) as [e4 H4]; [unfold MAX_RETRIES; lia |].
  exists e0, e1, e2, e3, e4. repeat split; try assumption.
  - unfold handler. rewrite Hprep. unfold MAX_RETRIES.
    cbn [retry_loop]. rewrite H0, H1, H2, H3, H4. reflexivity.
  - intros e' He'. rewrite He' in H4. cbv [attempt throw] in H4.
    now injection H4.
Qed.

(** The delays add up to one unit less than the next one. *)
Lemma backoff_sum_from (k : nat) : forall i,
  (fold_right N.add 0 (map backoff (seq i k)) + backoff i
   = backoff (i + k))%N.
Proof.
  induction k as [| k IH]; intros i.
  - now rewrite Nat.add_0_r.
  - simpl. specialize (IH (S i)).
    rewrite <- Nat.add_succ_comm, <- IH.
    unfold backoff. rewrite Nat2N.inj_succ, N.pow_succ_r'. lia.
Qed.

(** X8. When the first [k] attempts fail and attempt [k + 1] gives an
    envelope, the handler has made [k + 1] calls and has waited
    [1000 * 2^j] ms after failure [j] (counting from 0), which is
    [1000 * (2^k - 1)] ms in all, whatever the envelope holds. *)
Theorem recovery_after_failures (env : Env) (req : Request)
    (provider : nat -> fetch_result) (url : string) (payload : Payload)
    (k : nat) (envelope : value) :
  prepare env req = inr (url, payload) ->
  k < MAX_RETRIES ->
  (forall j, j < k -> exists e, attempt (provider j) = inl e) ->
  attempt (provider k) = inr envelope ->
  calls (fst (handler env req provider)) = S k
  /\ sleeps (fst (handler env req provider)) = map backoff (seq 0 k)
  /\ fold_right N.add 0%N (sleeps (fst (handler env req provider)))
     = ((2 ^ N.of_nat k - 1) * 1000)%N.
Proof.
  intros Hprep Hk Hfail Hatt.
  destruct (handler_success_at env req provider url payload Hprep k envelope
              Hk Hfail Hatt) as (pre & Hh & Hf & Hs & _).
  destruct (respond_output_one envelope)
    as (logs & code & body & Ho & Hlf & Hls & _).
  assert (Hsl : sleeps (fst (handler env req provider)) =
                map backoff (seq 0 k)).
  { rewrite Hh, Ho. cbn [fst].
    rewrite sleeps_app. simpl. rewrite sleeps_app, Hs, Hls.
    simpl. now rewrite app_nil_r. }
  split; [| split; [exact Hsl |]].
  - rewrite Hh, Ho. cbn [fst]. rewrite calls_app, calls_fetch_cons, calls_app.
    unfold calls. rewrite Hf, Hlf, repeat_length. simpl. lia.
  - rewrite Hsl. pose proof (backoff_sum_from k 0) as Hsum.
    unfold backoff in Hsum at 2 3. simpl (0 + k) in Hsum. simpl in Hsum.
    assert (1 <= 2 ^ N.of_nat k)%N by (apply N.pow_lower_bound; lia).
    lia.
Qed.

(** The delays of the loop are those of its failed attempts but the
    last. *)
Lemma loop_sleeps (provider : nat -> fetch_result) (url : string)
    (payload : Payload) (remaining : nat) : forall i,
  i + remaining = MAX_RETRIES ->
  sleeps (fst (retry_loop provider url payload remaining i)) =
  map backoff
    (seq i (calls (fst (retry_loop provider url payload remaining i)) - 1)).
Proof.
  induction remaining as [| remaining IH]; intros i Hi; [reflexivity |].
  destruct (attempt (provider i)) as [e | v] eqn:Ha.
  - destruct (Nat.lt_ge_cases i (MAX_RETRIES - 1)) as [Hlt | Hge].
    + rewrite (loop_retry provider url payload remaining i e Ha Hlt).
      cbn [fst]. specialize (IH (S i)).
      destruct remaining as [| remaining];
        [unfold MAX_RETRIES in *; lia |].
      destruct (loop_first_call provider url payload remaining (S i))
        as [rest Hrest].
      assert (IH' := IH ltac:(lia)). rewrite Hrest in IH' |- *.
      unfold calls, sleeps, fetches in *.
      cbn [flat_map app length Nat.sub seq map] in *.
      rewrite Nat.sub_0_r in IH'. now rewrite IH'.
    + now rewrite (loop_give_up provider url payload remaining i e Ha Hge).
  - now rewrite (loop_break provider url payload remaining i v Ha).
Qed.

Lemma timeline_app (t1 t2 : list event) :
  timeline (t1 ++ t2) = (timeline t1 ++ timeline t2)%list.
Proof. apply flat_map_app. Qed.

(** A trace without a call and without a delay has an empty timeline. *)
Lemma timeline_nil (t : list event) :
  fetches t = [] -> sleeps t = [] -> timeline t = [].
Proof.
  induction t as [| e t IH]; [reflexivity |].
  destruct e; simpl; try discriminate; exact IH.
Qed.

Lemma respond_output_timeline (apiResponse : value) :
  timeline (respond_output apiResponse) = [].
Proof.
  destruct (respond_output_one apiResponse)
    as (logs & code & body & -> & Hf & Hs & _).
  rewrite timeline_app, (timeline_nil logs Hf Hs). reflexivity.
Qed.

(** X9. In every invocation the calls and the delays alternate, starting
    and ending with a call, and the delays are 1000, 2000, 4000, 8000 ms in
    this order: the handler never waits before its first call or after its
    last one, never twice in a row, and never 16000 ms.  So it makes at
    most 5 calls and sleeps at most 15000 ms in all. *)
Theorem delays_follow_calls (env : Env) (req : Request)
    (provider : nat -> fetch_result) :
  In (timeline (fst (handler env req provider)))
     [ [];
       [Call];
       [Call; Wait 1000; Call];
       [Call; Wait 1000; Call; Wait 2000; Call];
       [Call; Wait 1000; Call; Wait 2000; Call; Wait 4000; Call];
       [Call; Wait 1000; Call; Wait 2000; Call; Wait 4000; Call;
        Wait 8000; Call] ]
  /\ calls (fst (handler env req provider)) <= 5
  /\ (fold_right N.add 0 (sleeps (fst (handler env req provider)))
      <= 15000)%N.
Proof.
  assert (Hs : sleeps (fst (handler env req provider)) =
               map backoff
                 (seq 0 (calls (fst (handler env req provider)) - 1))).
  { unfold handler.
    destruct (prepare env req) as [[t c] | [url payload]] eqn:Hprep.
    - destruct (prepare_quiet env req t c Hprep) as [Hf Hsl].
      unfold calls. cbn [fst]. now rewrite Hf, Hsl.
    - pose proof (loop_sleeps provider url payload MAX_RETRIES 0 eq_refl)
        as Hl.
      destruct (retry_loop provider url payload MAX_RETRIES 0) as [evs exit].
      cbn [fst] in *. destruct exit as [apiResponse |]; cbn [fst];
        [| exact Hl].
      destruct (respond_output_one apiResponse)
        as (logs & code & body & -> & Hlf & Hls & _).
      rewrite !sleeps_app, !calls_app, Hls. unfold calls in *.
      rewrite Hlf. simpl. now rewrite app_nil_r, !Nat.add_0_r. }
  pose proof (handler_calls_bound env req provider) as Hb.
  unfold MAX_RETRIES in Hb.
  split; [| split; [exact Hb |]].
  - clear Hs Hb. unfold handler.
    destruct (prepare env req) as [[t c] | [url payload]] eqn:Hprep.
    + destruct (prepare_quiet env req t c Hprep) as [Hf Hsl].
      cbn [fst]. rewrite (timeline_nil t Hf Hsl). now left.
    + unfold MAX_RETRIES. cbn [retry_loop].
      repeat match goal with
             | |- context [attempt (provider ?i)] =>
                 destruct (attempt (provider i))
             end;
        cbn [fst snd Nat.ltb Nat.leb Nat.sub MAX_RETRIES];
        rewrite ?timeline_app, ?respond_output_timeline, ?app_nil_r;
        vm_compute; tauto.
  - rewrite Hs.
    destruct (calls (fst (handler env req provider)))
      as [| [| [| [| [| [| n]]]]]]; try (vm_compute; discriminate).
    lia.
Qed.

(** ** The output stage, on text that does not parse *)

(** X10. When an attempt within the budget gives an envelope whose text is
    a non-empty string that [JSON.parse] rejects, the handler makes no
    further call and responds 500 with a body of two fields: the
    invalid-JSON [message] and, as [errorDetails], the message of the
    error [JSON.parse] threw.  The text itself is not sent back. *)
Theorem unparsable_text_is_reported (env : Env) (req : Request)
    (provider : nat -> fetch_result) (url : string) (payload : Payload)
    (k : nat) (envelope : value) (text : string) (e : Error) :
  prepare env req = inr (url, payload) ->
  k < MAX_RETRIES ->
  (forall j, j < k -> exists e', attempt (provider j) = inl e') ->
  attempt (provider k) = inr envelope ->
  jsonText_of envelope = inr (VStr text) ->
  text <> "" ->
  JSON_parse text = inl e ->
  calls (fst (handler env req provider)) = S k
  /\ responses (fst (handler env req provider)) =
       [(500%N, VObj [("message", VStr msg_invalid_json);
                      ("errorDetails", VStr (err_message e))])]
  /\ snd (handler env req provider) = Resolved.
Proof.
  intros Hprep Hk Hfail Hatt Htext Hne Hparse.
  destruct (handler_success_at env req provider url payload Hprep k envelope
              Hk Hfail Hatt) as (pre & Hh & Hf & _ & Hr).
  assert (Hout : respond_output envelope =
                 [EConsole Err
                    [LText "Error parsing or sending final response:";
                     LErr e];
                  ERespond 500
                    (failure_body msg_invalid_json (err_message e))]).
  { unfold respond_output, parse_output. unfold jsonText_of in Htext.
    destruct (first_candidate envelope) as [e0 | c]; [discriminate |].
    simpl in Htext. rewrite Htext. simpl.
    apply String.eqb_neq in Hne. rewrite Hne. simpl.
    rewrite Hparse. reflexivity. }
  rewrite Hh, Hout. cbn [fst snd].
  rewrite calls_app, responses_app, calls_fetch_cons. unfold calls.
  rewrite Hf, Hr, repeat_length. simpl. repeat split. lia.
Qed.

(** ** Where a response comes from *)

(** The responses written before the call. *)
Lemma prepare_end_responses (env : Env) (req : Request)
    (t : list event) (c : completion) (code : N) (b : value) :
  prepare env req = inl (t, c) -> In (code, b) (responses t) ->
  (code = 405 \/ code = 400 \/ code = 500)%N
  /\ exists m, m <> "" /\ get b (KName "message") = inr (VStr m).
Proof.
  unfold prepare.
  destruct (negb (method req =? "POST")%string).
  { intros H. injection H as <- <-. simpl. intros [H | []].
    injection H as <- <-. split; [auto |].
    exists msg_method_not_allowed. split; [discriminate | reflexivity]. }
  destruct (key_missing (GEMINI_API_KEY env)).
  { intros H. injection H as <- <-. simpl. intros [H | []].
    injection H as <- <-. split; [auto |].
    exists msg_no_api_key. split; [discriminate | reflexivity]. }
  destruct (destructure (body req)) as [e | [p h]].
  { intros H. injection H as <- <-. simpl. intros [H | []].
    injection H as <- <-. split; [auto |].
    exists msg_invalid_body. split; [discriminate | reflexivity]. }
  destruct (negb (truthy p)).
  { intros H. injection H as <- <-. simpl. intros [H | []].
    injection H as <- <-. split; [auto |].
    exists msg_prompt_required. split; [discriminate | reflexivity]. }
  destruct (systemPrompt p); [intros H; injection H as <- <-; intros [] |].
  destruct (userQuery p h); [intros H; injection H as <- <-; intros [] |].
  discriminate.
Qed.

(** The value the loop leaves in [apiResponse] is the envelope of one of
    its attempts, unless no iteration ran. *)
Lemma loop_done_source (provider : nat -> fetch_result) (url : string)
    (payload : Payload) (remaining : nat) : forall i a,
  snd (retry_loop provider url payload remaining i) = LoopDone a ->
  a = VNull
  \/ exists k, i <= k < i + remaining /\ attempt (provider k) = inr a.
Proof.
  induction remaining as [| remaining IH]; intros i a.
  - simpl. intros H. injection H as <-. now left.
  - simpl. destruct (attempt (provider i)) as [e | v] eqn:Ha.
    + destruct (i <? 4)%nat; [| discriminate].
      specialize (IH (S i) a).
      destruct (retry_loop provider url payload remaining (S i)).
      simpl in *. intros H. destruct (IH H) as [-> | (k & Hk & Hatt)];
        [now left | right].
      exists k. split; [lia | exact Hatt].
    + simpl. intros H. injection H as <-. right.
      exists i. split; [lia | exact Ha].
Qed.

(** The [try] block of step 4 passes a value to the success response only
    when the envelope carried truthy text and [JSON.parse] accepted it. *)
Lemma parse_output_inr (apiResponse b : value) :
  snd (parse_output apiResponse) = inr b ->
  exists v text,
    jsonText_of apiResponse = inr v /\ truthy v = true
    /\ ToString v = inr text /\ JSON_parse text = inr b.
Proof.
  unfold parse_output, jsonText_of.
  destruct (first_candidate apiResponse) as [e | c]; [discriminate |].
  simpl. destruct (text_of c) as [e | t]; [discriminate |].
  destruct (truthy t) eqn:Ht; simpl.
  - destruct (ToString t) as [e | text] eqn:Hs; [discriminate |].
    simpl. intros H. exists t, text. auto.
  - destruct (get_opt c (KName "finishReason")) as [e | fr];
      [discriminate |].
    destruct (get_opt c (KName "safetyRatings")) as [e | sr];
      [discriminate |].
    simpl. destruct (ToString (or_else fr (VStr "UNKNOWN"))); discriminate.
Qed.

(** Every response of the handler is an error response with a message, or
    the 200 the output stage writes for the envelope of an attempt. *)
Lemma handler_response_origin (env : Env) (req : Request)
    (provider : nat -> fetch_result) (code : N) (b : value) :
  In (code, b) (responses (fst (handler env req provider))) ->
  ((code = 405 \/ code = 400 \/ code = 500)%N
   /\ exists m, m <> "" /\ get b (KName "message") = inr (VStr m))
  \/ (code = 200%N
      /\ exists k envelope,
           k < MAX_RETRIES /\ attempt (provider k) = inr envelope
           /\ snd (parse_output envelope) = inr b).
Proof.
  unfold handler.
  destruct (prepare env req) as [[t c] | [url payload]] eqn:Hprep.
  { intros Hin. left.
    exact (prepare_end_responses env req t c code b Hprep Hin). }
  pose proof (loop_responses provider url payload MAX_RETRIES 0) as Hresp.
  pose proof (loop_done_source provider url payload MAX_RETRIES 0) as Hsrc.
  destruct (retry_loop provider url payload MAX_RETRIES 0) as [evs exit].
  cbn [fst snd] in *. destruct exit as [a |].
  - destruct (respond_output_one a)
      as (logs & code' & b' & -> & _ & _ & Hl & Hcase).
    cbn [fst]. rewrite !responses_app, Hresp, Hl. simpl.
    intros [H | []]. injection H as -> ->.
    destruct (snd (parse_output a)) as [e | parsed] eqn:Hp.
    + destruct Hcase as [-> ->]. left. split; [auto |].
      exists msg_invalid_json. split; [discriminate | reflexivity].
    + destruct Hcase as [-> ->]. right. split; [reflexivity |].
      destruct (Hsrc a eq_refl) as [-> | (k & Hk & Hatt)].
      * discriminate.
      * exists k, a. split; [lia | auto].
  - destruct Hresp as (pre & e & -> & Hr).
    cbn [fst]. rewrite responses_app, Hr. simpl.
    intros [H | []]. injection H as <- <-. left. split; [auto |].
    exists msg_call_failed. split; [discriminate | reflexivity].
Qed.

(** X11. A 200 response is only ever written for the envelope of an
    attempt within the budget, and its body is what [JSON.parse] gave on
    the text of that envelope: no success response has any other
    content. *)
Theorem success_only_from_parsed_text (env : Env) (req : Request)
    (provider : nat -> fetch_result) (b : value) :
  In (200%N, b) (responses (fst (handler env req provider))) ->
  exists k envelope v text,
    k < MAX_RETRIES
    /\ attempt (provider k) = inr envelope
    /\ jsonText_of envelope = inr v /\ truthy v = true
    /\ ToString v = inr text
    /\ JSON_parse text = inr b.
Proof.
  intros Hin.
  destruct (handler_response_origin env req provider 200%N b Hin)
    as [([H | [H | H]] & _) | (_ & k & envelope & Hk & Hatt & Hp)];
    try discriminate.
  destruct (parse_output_inr envelope b Hp) as (v & text & H1 & H2 & H3 & H4).
  exists k, envelope, v, text. auto 6.
Qed.

(** X12. Every response of the handler has status 200, 400, 405 or 500,
    and every one that is not a 200 has an object as body, with a
    non-empty string under [message]. *)
Theorem error_responses_carry_a_message (env : Env) (req : Request)
    (provider : nat -> fetch_result) :
  Forall
    (fun cb : N * value =>
       fst cb = 200%N
       \/ ((fst cb = 400 \/ fst cb = 405 \/ fst cb = 500)%N
           /\ exists m,
                m <> "" /\ get (snd cb) (KName "message") = inr (VStr m)))
    (responses (fst (handler env req provider))).
Proof.
  apply Forall_forall. intros [code b] Hin. simpl.
  destruct (handler_response_origin env req provider code b Hin)
    as [([H | [H | H]] & Hm) | (H & _)]; auto 6.
Qed.

(** ** The key *)

(** The loop does the same with any URL. *)
Lemma loop_redact (provider : nat -> fetch_result) (u1 u2 : string)
    (payload : Payload) (remaining : nat) : forall i,
  map redact (fst (retry_loop provider u1 payload remaining i)) =
  map redact (fst (retry_loop provider u2 payload remaining i))
  /\ snd (retry_loop provider u1 payload remaining i) =
     snd (retry_loop provider u2 payload remaining i).
Proof.
  induction remaining as [| remaining IH]; intros i; [now split |].
  simpl. destruct (attempt (provider i)); [| now split].
  destruct (i <? 4)%nat; [| now split].
  specialize (IH (S i)).
  destruct (retry_loop provider u1 payload remaining (S i)) as [t1 x1].
  destruct (retry_loop provider u2 payload remaining (S i)) as [t2 x2].
  simpl in *. destruct IH as [-> ->]. now split.
Qed.

(** X13. The configured key reaches the outside in the URL of the outbound
    calls and nowhere else: with another key and the same provider answers,
    the handler logs, waits, sends as payload and responds the same, and
    the URL of every call is the text of the endpoint, ending in [?key=],
    followed by the key. *)
Theorem key_shows_only_in_url (k1 k2 : string) (req : Request)
    (provider : nat -> fetch_result) :
  k1 <> "" -> k2 <> "" ->
  map redact (fst (handler (mkEnv (Some k1)) req provider)) =
  map redact (fst (handler (mkEnv (Some k2)) req provider))
  /\ snd (handler (mkEnv (Some k1)) req provider) =
     snd (handler (mkEnv (Some k2)) req provider)
  /\ forall u p,
       In (u, p) (fetches (fst (handler (mkEnv (Some k1)) req provider))) ->
       u = "https://generativelanguage.googleapis.com/v1beta/models/gemini-2.5-flash-preview-09-2025:generateContent?key="
           ++ k1.
Proof.
  intros H1 H2. unfold handler, prepare. cbn [GEMINI_API_KEY key_missing].
  apply String.eqb_neq in H1, H2. rewrite H1, H2.
  destruct (negb (method req =? "POST")%string);
    [repeat split; intros u p [] |].
  destruct (destructure (body req)) as [e | [p h]];
    [repeat split; intros u q [] |].
  destruct (negb (truthy p)); [repeat split; intros u q [] |].
  destruct (systemPrompt p) as [e | sp]; [repeat split; intros u q [] |].
  destruct (userQuery p h) as [e | uq]; [repeat split; intros u q [] |].
  set (payload := mkpayload uq sp).
  destruct (loop_redact provider (apiUrl k1) (apiUrl k2) payload MAX_RETRIES 0)
    as [Ht Hx].
  pose proof (loop_fetches provider (apiUrl k1) payload MAX_RETRIES 0) as Hf.
  destruct (retry_loop provider (apiUrl k1) payload MAX_RETRIES 0)
    as [t1 x1].
  destruct (retry_loop provider (apiUrl k2) payload MAX_RETRIES 0)
    as [t2 x2].
  cbn [fst snd] in *. subst x2.
  assert (Hin : forall u q, In (u, q) (fetches t1) -> u = apiUrl k1).
  { intros u q Hin. rewrite Hf in Hin. apply repeat_spec in Hin.
    now injection Hin. }
  destruct x1 as [a |]; cbn [fst snd].
  - rewrite !map_app, Ht. repeat split.
    intros u q. rewrite fetches_app.
    destruct (respond_output_one a) as (logs & c & b & -> & Hl & _).
    rewrite fetches_app, Hl. simpl. rewrite app_nil_r. apply Hin.
  - repeat split; [exact Ht | exact Hin].
Qed.

(** ** Never two responses *)

(** X15. No invocation writes more than one response, and it writes none
    exactly when an exception escapes the handler. *)
Theorem at_most_one_response (env : Env) (req : Request)
    (provider : nat -> fetch_result) :
  length (responses (fst (handler env req provider))) <= 1
  /\ (length (responses (fst (handler env req provider))) = 1
      <-> snd (handler env req provider) = Resolved).
Proof.
  unfold handler.
  destruct (prepare env req) as [[t c] | [url payload]] eqn:Hprep.
  - destruct (prepare_ends env req t c Hprep)
      as [(-> & _ & logs & code & body & -> & Hr)
         | (-> & e & _ & _ & -> & _)]; cbn [fst snd].
    + rewrite responses_app, Hr. simpl. split; [lia | tauto].
    + simpl. split; [lia |]. split; discriminate.
  - pose proof (loop_responses provider url payload MAX_RETRIES 0) as Hloop.
    destruct (retry_loop provider url payload MAX_RETRIES 0) as [evs exit].
    cbn [fst snd] in Hloop. destruct exit as [a |]; cbn [fst snd].
    + destruct (respond_output_one a)
        as (logs & code & body & -> & _ & _ & Hr & _).
      rewrite !responses_app, Hloop, Hr. simpl. split; [lia | tauto].
    + destruct Hloop as (pre & e & -> & Hr).
      rewrite responses_app, Hr. simpl. split; [lia | tauto].
Qed.

End Properties.

(** * The properties on the scenarios *)

Import Ref Scenario.

(** C1.  The provider answers 403 to every attempt: the handler still makes
    all 5 calls, with the backoff delays between them, before it reports
    the failure. *)
Theorem forbidden_status_exhausts_budget :
  calls (fst (handler env_set req_full provider_forbidden)) = 5
  /\ sleeps (fst (handler env_set req_full provider_forbidden)) =
       [1000; 2000; 4000; 8000]%N
  /\ responses (fst (handler env_set req_full provider_forbidden)) =
       [(500%N,
         failure_body msg_call_failed
           "Gemini API Failed (Status: 403). Check Key validity, Billing, and API Enablement. Message: API key not valid.")].
Proof. vm_compute. repeat split. Qed.

(** A 403 followed by a success is answered 200. *)
Example forbidden_then_success :
  calls (fst (handler env_set req_full provider_second)) = 2
  /\ sleeps (fst (handler env_set req_full provider_second)) = [1000%N]
  /\ responses (fst (handler env_set req_full provider_second)) =
       [(200%N, components)].
Proof. vm_compute. repeat split. Qed.

Lemma rate_limit_exhausts_budget_witness :
  exists e,
    attempt (provider_rate_limited 4) = inl e
    /\ calls (fst (handler env_set req_full provider_rate_limited)) = 5
    /\ responses (fst (handler env_set req_full provider_rate_limited)) =
         [(500%N, VObj [("message", VStr msg_call_failed);
                        ("errorDetails", VStr (err_message e))])]
    /\ snd (handler env_set req_full provider_rate_limited) = Resolved
    /\ (forall r m t,
          provider_rate_limited 4 = Resolves r ->
          errorMessage_of r = inr m -> ToString m = inr t ->
          err_message e =
            "API returned status 429. Retrying... Message: " ++ t).
Proof.
  apply (rate_limit_exhausts_budget env_set req_full provider_rate_limited
           test_url (payload_of req_full)).
  - reflexivity.
  - intros i _. eexists. split; reflexivity.
Defined.

Lemma fifth_attempt_succeeds_witness :
  calls (fst (handler env_set req_full provider_fifth)) = 5
  /\ sleeps (fst (handler env_set req_full provider_fifth)) =
       [1000; 2000; 4000; 8000]%N
  /\ fold_right N.add 0%N
       (sleeps (fst (handler env_set req_full provider_fifth))) = 15000%N
  /\ responses (fst (handler env_set req_full provider_fifth)) =
       [(200%N, components)]
  /\ snd (handler env_set req_full provider_fifth) = Resolved.
Proof.
  apply (fifth_attempt_succeeds env_set req_full provider_fifth
           test_url (payload_of req_full) response_ok
           (envelope components_text) components_text components).
  - reflexivity.
  - intros i Hi.
    destruct i as [| [| [| [| i]]]]; try (eexists; split; reflexivity). lia.
  - reflexivity.
  - reflexivity.
  - reflexivity.
  - reflexivity.
  - vm_compute. reflexivity.
Defined.

Lemma parsed_json_is_the_body_witness :
  responses (fst (handler env_set req_full provider_ok)) =
    [(200%N, components)]
  /\ snd (handler env_set req_full provider_ok) = Resolved.
Proof.
  apply (parsed_json_is_the_body env_set req_full provider_ok
           test_url (payload_of req_full) 0
           (envelope components_text) components_text components).
  - reflexivity.
  - unfold MAX_RETRIES. lia.
  - intros j Hj. lia.
  - reflexivity.
  - reflexivity.
  - vm_compute. reflexivity.
Defined.

(** A parsed value of another shape than the schema's is passed on just the
    same. *)
Example off_schema_value_is_the_body :
  responses
    (fst (handler env_set req_full
            (always (succeeding (envelope ("{" ++ q "note" ++ ":[1,null]}"))))))
  = [(200%N, VObj [("note", VArr [VNum 1%Z; VNull])])].
Proof. vm_compute. reflexivity. Qed.

(** Text that is not JSON is answered 500 through the final [catch]. *)
Example invalid_text_is_a_parse_failure :
  responses
    (fst (handler env_set req_full
            (always (succeeding (envelope "{not valid json")))))
  = [(500%N, failure_body msg_invalid_json "Unexpected token in JSON")].
Proof. vm_compute. reflexivity. Qed.

(** C7: the claim fails on the code.  Two envelopes that differ in their
    safety ratings only get the same response, which names the finish
    reason and nothing else; and a finish reason that cannot be converted
    to text is not named either, the conversion's own error is. *)
Lemma safety_ratings_not_in_response :
  ratings_high <> ratings_low
  /\ responses
       (fst (handler env_set req_full (provider_blocked ratings_high))) =
     [(500%N,
       VObj [("message", VStr msg_invalid_json);
             ("errorDetails",
              VStr "Gemini returned empty content. Finish Reason: SAFETY")])]
  /\ responses
       (fst (handler env_set req_full (provider_blocked ratings_low))) =
     responses
       (fst (handler env_set req_full (provider_blocked ratings_high)))
  /\ responses
       (fst (handler env_set req_full
               (always (succeeding envelope_odd_reason)))) =
     [(500%N,
       VObj [("message", VStr msg_invalid_json);
             ("errorDetails",
              VStr "Cannot convert object to primitive value")])].
Proof.
  split; [discriminate |]. repeat split; vm_compute; reflexivity.
Qed.

Lemma empty_content_reports_finish_reason_witness :
  calls (fst (handler env_set req_full (provider_blocked ratings_high))) = 1
  /\ responses
       (fst (handler env_set req_full (provider_blocked ratings_high))) =
     [(500%N,
       VObj [("message", VStr msg_invalid_json);
             ("errorDetails",
              VStr "Gemini returned empty content. Finish Reason: SAFETY")])]
  /\ In (Err, [LText "Gemini returned empty content. Finish Reason:";
               LValue (VStr "SAFETY"); LText "Safety:";
               LJson ratings_high])
        (logged
           (fst (handler env_set req_full (provider_blocked ratings_high))))
  /\ snd (handler env_set req_full (provider_blocked ratings_high)) = Resolved.
Proof.
  apply (empty_content_reports_finish_reason env_set req_full
           (provider_blocked ratings_high) test_url (payload_of req_full) 0
           (envelope_blocked ratings_high) (candidate_blocked ratings_high)
           VUndefined (VStr "SAFETY") ratings_high "SAFETY").
  - reflexivity.
  - unfold MAX_RETRIES. lia.
  - intros j Hj. lia.
  - reflexivity.
  - reflexivity.
  - reflexivity.
  - reflexivity.
  - reflexivity.
  - reflexivity.
  - reflexivity.
Defined.

(** A candidate without a finish reason is reported as [UNKNOWN]. *)
Example missing_finish_reason_is_unknown :
  responses
    (fst (handler env_set req_full
            (always (succeeding
               (VObj [("candidates", VArr [VObj [("content", VObj [])]])])))))
  = [(500%N,
      VObj [("message", VStr msg_invalid_json);
            ("errorDetails",
             VStr "Gemini returned empty content. Finish Reason: UNKNOWN")])].
Proof. vm_compute. reflexivity. Qed.

(** C4: the claim fails on the code.  With no key configured a request
    that is not a POST is answered 405, not 500: the method is checked
    first. *)
Lemma missing_key_get_is_405 :
  key_missing (GEMINI_API_KEY env_unset) = true
  /\ responses (fst (handler env_unset req_get provider_ok)) =
       [(405%N, VObj [("message", VStr msg_method_not_allowed)])]
  /\ responses (fst (handler env_unset req_get provider_ok)) <>
       [(500%N, VObj [("message", VStr msg_no_api_key);
                      ("errorCode", VStr "NO_API_KEY_CONFIGURED")])].
Proof.
  split; [reflexivity |]. split; [reflexivity | discriminate].
Qed.

Lemma missing_key_is_reported_first_witness :
  calls (fst (handler env_unset req_unparsable provider_ok)) = 0
  /\ responses (fst (handler env_unset req_unparsable provider_ok)) =
       [(500%N, VObj [("message", VStr msg_no_api_key);
                      ("errorCode", VStr "NO_API_KEY_CONFIGURED")])]
  /\ snd (handler env_unset req_unparsable provider_ok) = Resolved.
Proof.
  apply (missing_key_is_reported_first env_unset req_unparsable provider_ok).
  - reflexivity.
  - reflexivity.
Defined.

(** C5: the claim fails on the code.  A POST request without a prompt that
    arrives with no key configured is answered 500, not 400. *)
Lemma missing_prompt_without_key_is_500 :
  method req_no_prompt = "POST"
  /\ body req_no_prompt =
       inr (VObj [("hardwareData", VStr "GPU: RTX 4070 12GB")])
  /\ responses (fst (handler env_unset req_no_prompt provider_ok)) =
       [(500%N, VObj [("message", VStr msg_no_api_key);
                      ("errorCode", VStr "NO_API_KEY_CONFIGURED")])]
  /\ forall b,
       responses (fst (handler env_unset req_no_prompt provider_ok)) <>
         [(400%N, b)].
Proof.
  repeat split. intros b. discriminate.
Qed.

Lemma missing_prompt_is_rejected_witness :
  calls (fst (handler env_set req_no_prompt provider_ok)) = 0
  /\ (exists m,
        responses (fst (handler env_set req_no_prompt provider_ok)) =
          [(400%N, VObj [("message", VStr m)])])
  /\ snd (handler env_set req_no_prompt provider_ok) = Resolved.
Proof.
  apply (missing_prompt_is_rejected env_set req_no_prompt provider_ok).
  - reflexivity.
  - reflexivity.
  - right. left.
    exists [("hardwareData", VStr "GPU: RTX 4070 12GB")].
    split; reflexivity.
Defined.

(** The other two ways of lacking a prompt. *)
Example empty_prompt_is_rejected :
  handler env_set req_empty_prompt provider_ok =
  ([ERespond 400 (VObj [("message", VStr msg_prompt_required)])], Resolved).
Proof. reflexivity. Qed.

Example unparsable_body_is_rejected :
  handler env_set req_unparsable provider_ok =
  ([ERespond 400 (VObj [("message", VStr msg_invalid_body)])], Resolved)
  /\ handler env_set req_no_body provider_ok =
     ([ERespond 400 (VObj [("message", VStr msg_invalid_body)])], Resolved).
Proof. split; reflexivity. Qed.

(** C8: the claim fails on the code.  A prompt that is an object with a
    property named [toString] passes the truthiness test and then cannot be
    interpolated: the exception escapes the handler, which has written no
    response. *)
Lemma object_prompt_gets_no_response :
  handler env_set req_object_prompt provider_ok =
    ([], Rejected (TypeError "Cannot convert object to primitive value"))
  /\ responses (fst (handler env_set req_object_prompt provider_ok)) = [].
Proof. split; reflexivity. Qed.

Lemma exactly_one_response_witness :
  snd (handler env_set req_full provider_fifth) = Resolved
  /\ length (responses (fst (handler env_set req_full provider_fifth))) = 1
  /\ exists pre code body,
       fst (handler env_set req_full provider_fifth) =
         (pre ++ [ERespond code body])%list
       /\ responses pre = [].
Proof.
  apply (exactly_one_response env_set req_full provider_fifth).
  intros p h Hd _. vm_compute in Hd. injection Hd as <- <-.
  split; reflexivity.
Defined.

Lemma absent_table_reads_undefined_witness :
  (exists p,
     ToString (lookup "prompt" [("prompt", VStr "4K gaming build")]) = inr p
     /\ contents_text (payload_of req_no_table) =
          userQuery_head ++ p ++ userQuery_table ++ "undefined")
  /\ 1 <= calls (fst (handler env_set req_no_table provider_ok))
  /\ fetches (fst (handler env_set req_no_table provider_ok)) =
       repeat (test_url, payload_of req_no_table)
         (calls (fst (handler env_set req_no_table provider_ok))).
Proof.
  apply (absent_table_reads_undefined env_set req_no_table provider_ok
           test_url (payload_of req_no_table)
           [("prompt", VStr "4K gaming build")]).
  - reflexivity.
  - reflexivity.
  - reflexivity.
Defined.

(** The user text of that call. *)
Example absent_table_user_text :
  map (fun c => contents_text (snd c))
      (fetches (fst (handler env_set req_no_table provider_ok)))
  = ["用戶需求: 4K gaming build" ++ LF ++ LF ++ "硬體規格參考圖表:" ++ LF
     ++ "undefined"].
Proof. vm_compute. reflexivity. Qed.

Lemma any_envelope_gets_a_response_witness :
  exists w prop,
    (w = "undefined" \/ w = "null")
    /\ (prop = "candidates"
        /\ nullish (VObj [("promptFeedback", VObj [])] : value Z) = true
        \/ prop = "content"
           /\ nullish (VObj [("promptFeedback", VObj [])] : value Z) = false)
    /\ parse_output (VObj [("promptFeedback", VObj [])]) =
       ([], inl (TypeError ("Cannot read properties of " ++ w
                            ++ " (reading '" ++ prop ++ "')")))
    /\ respond_output (VObj [("promptFeedback", VObj [])]) =
       [EConsole Err
          [LText "Error parsing or sending final response:";
           LErr (TypeError ("Cannot read properties of " ++ w
                            ++ " (reading '" ++ prop ++ "')"))];
        ERespond 500
          (VObj [("message", VStr msg_invalid_json);
                 ("errorDetails",
                  VStr ("Cannot read properties of " ++ w
                        ++ " (reading '" ++ prop ++ "')"))])].
Proof.
  apply (proj2 (any_envelope_gets_a_response
                  (VObj [("promptFeedback", VObj [])]))).
  right. exists VUndefined. split; reflexivity.
Defined.

(** The text reported for an envelope with no [candidates]. *)
Example no_candidates_details :
  responses (respond_output (VObj [("promptFeedback", VObj [])])) =
  [(500%N,
    VObj [("message", VStr msg_invalid_json);
          ("errorDetails",
           VStr "Cannot read properties of undefined (reading 'content')")])].
Proof. reflexivity. Qed.

(** * The further properties on the scenarios *)

Lemma other_methods_get_405_witness :
  handler env_unset req_put provider_ok =
  ([ERespond 405 (VObj [("message", VStr msg_method_not_allowed)])],
   Resolved).
Proof.
  apply (other_methods_get_405 env_unset req_put provider_ok).
  discriminate.
Defined.

Lemma body_without_prompt_messages_witness :
  handler env_set req_array_body provider_ok =
  ([ERespond 400 (VObj [("message", VStr msg_prompt_required)])], Resolved).
Proof.
  apply (body_without_prompt_messages env_set req_array_body provider_ok
           (VArr [VStr "4K gaming build"])).
  - reflexivity.
  - reflexivity.
  - reflexivity.
  - exact I.
Defined.

(** The body [null] is answered with the other message. *)
Example null_body_is_invalid :
  handler env_set req_null_body provider_ok =
  ([ERespond 400 (VObj [("message", VStr msg_invalid_body)])], Resolved).
Proof. reflexivity. Qed.

Lemma status_text_is_the_fallback_witness :
  attempt (Resolves response_unavailable) =
  inl (PlainError
         "API returned status 503. Retrying... Message: Service Unavailable").
Proof.
  apply (status_text_is_the_fallback response_unavailable).
  - reflexivity.
  - left. eexists. reflexivity.
Defined.

Lemma provider_message_is_preferred_witness :
  attempt (Resolves response_not_found) =
  inl (PlainError
         "API returned unhandled status 404. Message: models/x is not found.").
Proof.
  apply (provider_message_is_preferred response_not_found
           [("error", VObj [("message", VStr "models/x is not found.")])]
           [("message", VStr "models/x is not found.")]
           "models/x is not found.").
  - reflexivity.
  - reflexivity.
  - reflexivity.
  - reflexivity.
  - discriminate.
Defined.

Lemma every_failure_is_retried_witness :
  exists e0 e1 e2 e3 e4,
    attempt (provider_offline 0) = inl e0
    /\ attempt (provider_offline 1) = inl e1
    /\ attempt (provider_offline 2) = inl e2
    /\ attempt (provider_offline 3) = inl e3
    /\ attempt (provider_offline 4) = inl e4
    /\ handler env_set req_full provider_offline =
       ([EFetch test_url (payload_of req_full);
         EConsole Warn [LText (retry_warning 0 e0)]; ESleep 1000;
         EFetch test_url (payload_of req_full);
         EConsole Warn [LText (retry_warning 1 e1)]; ESleep 2000;
         EFetch test_url (payload_of req_full);
         EConsole Warn [LText (retry_warning 2 e2)]; ESleep 4000;
         EFetch test_url (payload_of req_full);
         EConsole Warn [LText (retry_warning 3 e3)]; ESleep 8000;
         EFetch test_url (payload_of req_full);
         EConsole Err [LText "Gemini API call failed after max retries:";
                       LText (err_message e4)];
         ERespond 500 (VObj [("message", VStr msg_call_failed);
                             ("errorDetails", VStr (err_message e4))])],
        Resolved)
    /\ (forall e', provider_offline 4 = Rejects e' -> e4 = e').
Proof.
  apply (every_failure_is_retried env_set req_full provider_offline
           test_url (payload_of req_full)).
  - reflexivity.
  - intros j r _ Hr. discriminate Hr.
Defined.

(** The response when the network is down. *)
Example offline_details :
  responses (fst (handler env_set req_full provider_offline)) =
  [(500%N, VObj [("message", VStr msg_call_failed);
                 ("errorDetails", VStr "fetch failed")])].
Proof. vm_compute. reflexivity. Qed.

(** A gateway that answers 503 with a page every time. *)
Example unavailable_five_times :
  responses (fst (handler env_set req_full provider_unavailable)) =
  [(500%N,
    failure_body msg_call_failed
      "API returned status 503. Retrying... Message: Service Unavailable")].
Proof. vm_compute. reflexivity. Qed.

Lemma recovery_after_failures_witness :
  calls (fst (handler env_set req_full provider_third)) = 3
  /\ sleeps (fst (handler env_set req_full provider_third)) =
       map backoff (seq 0 2)
  /\ fold_right N.add 0%N
       (sleeps (fst (handler env_set req_full provider_third)))
     = ((2 ^ N.of_nat 2 - 1) * 1000)%N.
Proof.
  apply (recovery_after_failures env_set req_full provider_third
           test_url (payload_of req_full) 2 (envelope components_text)).
  - reflexivity.
  - unfold MAX_RETRIES. lia.
  - intros j Hj. destruct j as [| [| j]]; try (eexists; reflexivity). lia.
  - reflexivity.
Defined.

Lemma unparsable_text_is_reported_witness :
  calls (fst (handler env_set req_full provider_bad_text)) = 1
  /\ responses (fst (handler env_set req_full provider_bad_text)) =
       [(500%N,
         VObj [("message", VStr msg_invalid_json);
               ("errorDetails",
                VStr (err_message (SyntaxError "Unexpected token in JSON")))])]
  /\ snd (handler env_set req_full provider_bad_text) = Resolved.
Proof.
  apply (unparsable_text_is_reported env_set req_full provider_bad_text
           test_url (payload_of req_full) 0 (envelope "{not valid json")
           "{not valid json" (SyntaxError "Unexpected token in JSON")).
  - reflexivity.
  - unfold MAX_RETRIES. lia.
  - intros j Hj. lia.
  - reflexivity.
  - reflexivity.
  - discriminate.
  - vm_compute. reflexivity.
Defined.

Lemma success_only_from_parsed_text_witness :
  exists k envelope v text,
    k < MAX_RETRIES
    /\ attempt (provider_fifth k) = inr envelope
    /\ jsonText_of envelope = inr v /\ truthy v = true
    /\ ToString v = inr text
    /\ JSON_parse text = inr components.
Proof.
  apply (success_only_from_parsed_text env_set req_full provider_fifth
           components).
  vm_compute. left. reflexivity.
Defined.

Lemma key_shows_only_in_url_witness :
  map redact (fst (handler (mkEnv (Some "test-key")) req_full provider_fifth))
  = map redact (fst (handler (mkEnv (Some other_key)) req_full provider_fifth))
  /\ snd (handler (mkEnv (Some "test-key")) req_full provider_fifth) =
     snd (handler (mkEnv (Some other_key)) req_full provider_fifth)
  /\ forall u p,
       In (u, p)
          (fetches (fst (handler (mkEnv (Some "test-key")) req_full
                           provider_fifth))) ->
       u = "https://generativelanguage.googleapis.com/v1beta/models/gemini-2.5-flash-preview-09-2025:generateContent?key="
           ++ "test-key".
Proof.
  apply (key_shows_only_in_url "test-key" other_key req_full provider_fifth).
  - discriminate.
  - discriminate.
Defined.
